(** * poly-iac-mcp: adapter registry and dispatch engine

    A shallow embedding of the JavaScript entry points ([index.js],
    [main.js]), of the Terraform/OpenTofu adapter ([adapters/terraform.js])
    and of the ReScript adapters ([Terraform.res], [Pulumi.res]), together
    with the properties of tool dispatch, adapter start-up and argument
    construction that the specification states about them.

    External processes are the only effect that matters here.  They are
    modelled by a [World] that carries the behaviour of the operating
    system (what each invocation would answer), the log of invocations made
    so far, the lines written with [console.error] and the module-level
    mutable variables of the three adapters. *)

From Stdlib Require Import ZArith Ascii String.
From stdpp Require Import base strings list gmap pretty.

Local Open Scope string_scope.
Local Open Scope list_scope.
Local Open Scope Z_scope.

(* ===================================================================== *)
(** ** JavaScript values *)
(* ===================================================================== *)

Module JS.

(** A JSON-like JavaScript value.  Numbers are the integer-valued ones
    (exit codes and counters are all the programs compute with); strings are
    sequences of bytes, on which [TextDecoder.decode] is the identity.  An
    object is the list of its own enumerable properties in enumeration
    order. *)
#[warnings="-register-all"]
Inductive Value : Type :=
| Undefined
| Null
| Bool (b : bool)
| Num (n : Z)
| Str (s : string)
| Arr (elements : list Value)
| Obj (properties : list (string * Value)).

(** ToBoolean, as used by [if (x)] and [!x]. *)
Definition truthy (v : Value) : bool :=
  match v with
  | Undefined | Null => false
  | Bool b => b
  | Num n => negb (n =? 0)%Z
  | Str s => negb (bool_decide (s = ""))
  | Arr _ | Obj _ => true
  end.

(** ToString, as used by a template literal [`${x}`]. *)
Fixpoint toString (v : Value) : string :=
  match v with
  | Undefined => "undefined"
  | Null => "null"
  | Bool true => "true"
  | Bool false => "false"
  | Num n => pretty n
  | Str s => s
  | Arr xs =>
      (fix join (l : list Value) : string :=
         match l with
         | [] => ""
         | x :: rest =>
             let sx := match x with
                       | Undefined | Null => ""
                       | _ => toString x
                       end in
             match rest with
             | [] => sx
             | _ :: _ => sx +:+ "," +:+ join rest
             end
         end) xs
  | Obj _ => "[object Object]"
  end.

(** The characters of a string with their indices, as [Object.entries]
    enumerates a string primitive. *)
Fixpoint string_entries (i : nat) (s : string) : list (string * Value) :=
  match s with
  | EmptyString => []
  | String c rest => (pretty i, Str (String c EmptyString)) :: string_entries (S i) rest
  end.

(** [Object.entries(v)].  [None] stands for the TypeError raised on
    [undefined] and [null]. *)
Definition Object_entries (v : Value) : option (list (string * Value)) :=
  match v with
  | Undefined | Null => None
  | Bool _ | Num _ => Some []
  | Str s => Some (string_entries 0 s)
  | Arr xs => Some (imap (λ i x, (pretty i, x)) xs)
  | Obj fields => Some fields
  end.

(** Property read [o.k] on an object given by its property list. *)
Fixpoint get (fields : list (string * Value)) (k : string) : Value :=
  match fields with
  | [] => Undefined
  | (k', v) :: rest => if bool_decide (k' = k) then v else get rest k
  end.

(** *** [JSON.stringify(value, null, 2)] *)

Definition dquote : ascii := "034"%char.
Definition newline : string := String "010"%char EmptyString.

Definition hex_digit (n : N) : ascii :=
  if (n <? 10)%N then ascii_of_N (48 + n) else ascii_of_N (87 + n).

(** QuoteJSONString on one character: the two-character escapes, the
    [\u00xx] form for the other control characters, the character itself
    otherwise. *)
Definition quote_char (c : ascii) : string :=
  let n := N_of_ascii c in
  if (n =? 8)%N then "\b"
  else if (n =? 9)%N then "\t"
  else if (n =? 10)%N then "\n"
  else if (n =? 12)%N then "\f"
  else if (n =? 13)%N then "\r"
  else if (n =? 34)%N then String "\"%char (String dquote EmptyString)
  else if (n =? 92)%N then "\\"
  else if (n <? 32)%N then
    "\u00" +:+ String (hex_digit (n / 16)) (String (hex_digit (n mod 16)) EmptyString)
  else String c EmptyString.

Fixpoint quote_chars (s : string) : string :=
  match s with
  | EmptyString => EmptyString
  | String c rest => quote_char c +:+ quote_chars rest
  end.

Definition quote (s : string) : string :=
  String dquote (quote_chars s +:+ String dquote EmptyString).

(** Joins the serialised members with [",\n" + indent]. *)
Fixpoint join_members (indent : string) (members : list string) : string :=
  match members with
  | [] => ""
  | [m] => m
  | m :: rest => m +:+ "," +:+ newline +:+ indent +:+ join_members indent rest
  end.

(** SerializeJSONProperty with a gap of two spaces; [indent] is the current
    indentation.  [None] is the [undefined] result: such a property is left
    out of an object and written [null] in an array. *)
Fixpoint serialize (indent : string) (v : Value) : option string :=
  match v with
  | Undefined => None
  | Null => Some "null"
  | Bool true => Some "true"
  | Bool false => Some "false"
  | Num n => Some (pretty n)
  | Str s => Some (quote s)
  | Arr xs =>
      let inner := indent +:+ "  " in
      let members :=
        (fix go (l : list Value) : list string :=
           match l with
           | [] => []
           | x :: rest => default "null" (serialize inner x) :: go rest
           end) xs in
      match members with
      | [] => Some "[]"
      | _ => Some ("[" +:+ newline +:+ inner +:+ join_members inner members
                   +:+ newline +:+ indent +:+ "]")
      end
  | Obj fields =>
      let inner := indent +:+ "  " in
      let members :=
        (fix go (l : list (string * Value)) : list string :=
           match l with
           | [] => []
           | (k, x) :: rest =>
               match serialize inner x with
               | Some sx => (quote k +:+ ": " +:+ sx) :: go rest
               | None => go rest
               end
           end) fields in
      match members with
      | [] => Some "{}"
      | _ => Some ("{" +:+ newline +:+ inner +:+ join_members inner members
                   +:+ newline +:+ indent +:+ "}")
      end
  end.

Definition JSON_stringify (v : Value) : option string := serialize "" v.

(** *** [JSON.parse] *)

(** The reading side, for texts that denote values of the model: integer
    numbers, and string escapes that denote a single byte.  [None] stands
    for the SyntaxError. *)

Definition is_ws (c : ascii) : bool :=
  let n := N_of_ascii c in
  ((n =? 32) || (n =? 9) || (n =? 10) || (n =? 13))%N.

Fixpoint skip_ws (s : string) : string :=
  match s with
  | String c rest => if is_ws c then skip_ws rest else s
  | EmptyString => EmptyString
  end.

Definition hex_value (c : ascii) : option N :=
  let n := N_of_ascii c in
  if ((48 <=? n) && (n <=? 57))%N then Some (n - 48)%N
  else if ((97 <=? n) && (n <=? 102))%N then Some (n - 87)%N
  else if ((65 <=? n) && (n <=? 70))%N then Some (n - 55)%N
  else None.

(** The escape [\uXXXX], for a code below 256. *)
Definition unicode_escape (h1 h2 h3 h4 : ascii) : option ascii :=
  match hex_value h1, hex_value h2, hex_value h3, hex_value h4 with
  | Some 0%N, Some 0%N, Some a, Some b => Some (ascii_of_N (16 * a + b))
  | _, _, _, _ => None
  end.

(** The characters of a string literal after its opening quote, up to and
    including the closing quote: the denoted string and the rest of the
    text. *)
Fixpoint read_string (s : string) : option (string * string) :=
  match s with
  | EmptyString => None
  | String c rest =>
      let n := N_of_ascii c in
      if (n =? 34)%N then Some (EmptyString, rest)
      else if (n =? 92)%N then
        match rest with
        | String e rest' =>
            let k (d : ascii) (tail : string) :=
              match read_string tail with
              | Some (str, after) => Some (String d str, after)
              | None => None
              end in
            let m := N_of_ascii e in
            if (m =? 98)%N then k "008"%char rest'
            else if (m =? 116)%N then k "009"%char rest'
            else if (m =? 110)%N then k "010"%char rest'
            else if (m =? 102)%N then k "012"%char rest'
            else if (m =? 114)%N then k "013"%char rest'
            else if (m =? 34)%N then k dquote rest'
            else if (m =? 92)%N then k "\"%char rest'
            else if (m =? 47)%N then k "/"%char rest'
            else if (m =? 117)%N then
              match rest' with
              | String h1 (String h2 (String h3 (String h4 rest''))) =>
                  match unicode_escape h1 h2 h3 h4 with
                  | Some d => k d rest''
                  | None => None
                  end
              | _ => None
              end
            else None
        | EmptyString => None
        end
      else if (n <? 32)%N then None
      else
        match read_string rest with
        | Some (str, after) => Some (String c str, after)
        | None => None
        end
  end.

Definition digit_value (c : ascii) : option N :=
  let n := N_of_ascii c in
  if ((48 <=? n) && (n <=? 57))%N then Some (n - 48)%N else None.

(** The digits at the head of a text, accumulated in base ten. *)
Fixpoint read_digits (acc : N) (s : string) : N * string :=
  match s with
  | String c rest =>
      match digit_value c with
      | Some d => read_digits (10 * acc + d) rest
      | None => (acc, s)
      end
  | EmptyString => (acc, s)
  end.

(** An unsigned integer: [0], or a non-zero digit followed by digits.  A
    fraction or an exponent after it is outside the model. *)
Definition read_natural (s : string) : option (N * string) :=
  match s with
  | String c rest =>
      match digit_value c with
      | Some 0%N =>
          match rest with
          | String c' _ =>
              if (bool_decide (is_Some (digit_value c')) || bool_decide (c' = "."%char)
                  || bool_decide (c' = "e"%char) || bool_decide (c' = "E"%char))
              then None else Some (0%N, rest)
          | EmptyString => Some (0%N, rest)
          end
      | Some d =>
          let r := read_digits d rest in
          match r.2 with
          | String c' _ =>
              if (bool_decide (c' = "."%char) || bool_decide (c' = "e"%char)
                  || bool_decide (c' = "E"%char))
              then None else Some r
          | EmptyString => Some r
          end
      | None => None
      end
  | EmptyString => None
  end.

(** [o[k] = v] while an object literal is read: a repeated key keeps its
    place and takes the later value. *)
Fixpoint set_property (fields : list (string * Value)) (k : string) (v : Value)
  : list (string * Value) :=
  match fields with
  | [] => [(k, v)]
  | (k', v') :: rest =>
      if bool_decide (k' = k) then (k', v) :: rest
      else (k', v') :: set_property rest k v
  end.

(** Whether the text starts with the given word, and what follows it. *)
Fixpoint strip_prefix (word s : string) : option string :=
  match word, s with
  | EmptyString, _ => Some s
  | String a word', String b s' =>
      if bool_decide (a = b) then strip_prefix word' s' else None
  | String _ _, EmptyString => None
  end.

(** A value, the members of an object after the first key's opening brace,
    and the elements of an array.  [fuel] bounds the number of nested
    calls. *)
Fixpoint read_value (fuel : nat) (s : string) : option (Value * string) :=
  match fuel with
  | O => None
  | S fuel =>
      match skip_ws s with
      | EmptyString => None
      | String c rest =>
          let n := N_of_ascii c in
          if (n =? 123)%N then
            match skip_ws rest with
            | String c' rest' =>
                if (N_of_ascii c' =? 125)%N then Some (Obj [], rest')
                else
                  match read_members fuel [] rest with
                  | Some (fields, after) => Some (Obj fields, after)
                  | None => None
                  end
            | EmptyString => None
            end
          else if (n =? 91)%N then
            match skip_ws rest with
            | String c' rest' =>
                if (N_of_ascii c' =? 93)%N then Some (Arr [], rest')
                else
                  match read_elements fuel rest with
                  | Some (xs, after) => Some (Arr xs, after)
                  | None => None
                  end
            | EmptyString => None
            end
          else if (n =? 34)%N then
            match read_string rest with
            | Some (str, after) => Some (Str str, after)
            | None => None
            end
          else if (n =? 45)%N then
            match read_natural rest with
            | Some (m, after) => Some (Num (- Z.of_N m), after)
            | None => None
            end
          else
            match strip_prefix "true" (String c rest) with
            | Some after => Some (Bool true, after)
            | None =>
            match strip_prefix "false" (String c rest) with
            | Some after => Some (Bool false, after)
            | None =>
            match strip_prefix "null" (String c rest) with
            | Some after => Some (Null, after)
            | None =>
            match read_natural (String c rest) with
            | Some (m, after) => Some (Num (Z.of_N m), after)
            | None => None
            end end end end
      end
  end
with read_members (fuel : nat) (acc : list (string * Value)) (s : string)
  : option (list (string * Value) * string) :=
  match fuel with
  | O => None
  | S fuel =>
      match skip_ws s with
      | String q rest =>
          if (N_of_ascii q =? 34)%N then
            match read_string rest with
            | Some (k, after_key) =>
                match skip_ws after_key with
                | String colon after_colon =>
                    if (N_of_ascii colon =? 58)%N then
                      match read_value fuel after_colon with
                      | Some (v, after_value) =>
                          let acc := set_property acc k v in
                          match skip_ws after_value with
                          | String sep after_sep =>
                              if (N_of_ascii sep =? 44)%N
                              then read_members fuel acc after_sep
                              else if (N_of_ascii sep =? 125)%N
                              then Some (acc, after_sep)
                              else None
                          | EmptyString => None
                          end
                      | None => None
                      end
                    else None
                | EmptyString => None
                end
            | None => None
            end
          else None
      | EmptyString => None
      end
  end
with read_elements (fuel : nat) (s : string) : option (list Value * string) :=
  match fuel with
  | O => None
  | S fuel =>
      match read_value fuel s with
      | Some (v, after_value) =>
          match skip_ws after_value with
          | String sep after_sep =>
              if (N_of_ascii sep =? 44)%N then
                match read_elements fuel after_sep with
                | Some (vs, after) => Some (v :: vs, after)
                | None => None
                end
              else if (N_of_ascii sep =? 93)%N then Some ([v], after_sep)
              else None
          | EmptyString => None
          end
      | None => None
      end
  end.

(** [JSON.parse(text)]: one value, with nothing but white space after it.
    No call consumes less than one character, so the length of the text is
    fuel enough. *)
Definition JSON_parse (text : string) : option Value :=
  match read_value (S (String.length text)) text with
  | Some (v, after) =>
      match skip_ws after with
      | EmptyString => Some v
      | String _ _ => None
      end
  | None => None
  end.

End JS.

(** Equality of values is decidable. *)
#[global] Instance value_eq_dec : EqDecision JS.Value.
Proof.
  refine (fix go (x y : JS.Value) {struct x} : Decision (x = y) :=
    match x, y with
    | JS.Undefined, JS.Undefined => left eq_refl
    | JS.Null, JS.Null => left eq_refl
    | JS.Bool a, JS.Bool b => cast_if (decide (a = b))
    | JS.Num a, JS.Num b => cast_if (decide (a = b))
    | JS.Str a, JS.Str b => cast_if (decide (a = b))
    | JS.Arr xs, JS.Arr ys =>
        cast_if ((fix go_list (l1 l2 : list JS.Value) {struct l1}
                   : Decision (l1 = l2) :=
                    match l1, l2 with
                    | [], [] => left eq_refl
                    | a :: l1', b :: l2' =>
                        cast_if_and (go a b) (go_list l1' l2')
                    | _, _ => right _
                    end) xs ys)
    | JS.Obj xs, JS.Obj ys =>
        cast_if ((fix go_list (l1 l2 : list (string * JS.Value)) {struct l1}
                   : Decision (l1 = l2) :=
                    match l1, l2 with
                    | [], [] => left eq_refl
                    | (k1, a) :: l1', (k2, b) :: l2' =>
                        cast_if_and3 (decide (k1 = k2)) (go a b) (go_list l1' l2')
                    | _, _ => right _
                    end) xs ys)
    | _, _ => right _
    end); clear go; try clear go_list; congruence.
Defined.

(** The argument mapping of a call: [request.params.arguments]. *)
Abbreviation Args := (gmap string JS.Value).

(** Destructuring [{ k }] of the argument object: the property, or
    [undefined] when it is absent. *)
Definition prop (a : Args) (k : string) : JS.Value :=
  default JS.Undefined (a !! k).

(** Destructuring with a default, [{ k = d }]: the default is taken exactly
    when the property is [undefined]. *)
Definition prop_default (a : Args) (k : string) (d : JS.Value) : JS.Value :=
  match prop a k with
  | JS.Undefined => d
  | v => v
  end.

(* ===================================================================== *)
(** ** The world: external processes and module state *)
(* ===================================================================== *)

(** One use of the process runner: the binary and the argument vector
    handed to [Deno.Command].  Arguments are kept as the values the caller
    pushed, each one a single discrete argument. *)
Record Invocation : Type := mkInvocation {
  inv_binary : string;
  inv_args : list JS.Value
}.

(** What the operating system answers to an invocation: the process cannot
    be spawned (the call throws), or it runs to completion. *)
Inductive ProcOutcome : Type :=
| SpawnError (message : string)
| Exited (code : Z) (stdout stderr : string).

Record World : Type := mkWorld {
  (** behaviour of the external binaries, given the earlier invocations *)
  os : list Invocation → Invocation → ProcOutcome;
  (** every invocation of the process runner so far, oldest first *)
  invocations : list Invocation;
  (** lines written with [console.error], oldest first *)
  stderr_lines : list string;
  (** [let binaryPath], [let connected] of adapters/terraform.js *)
  tfjs_binaryPath : option string;
  tfjs_connected : bool;
  (** [binaryPath], [connected] refs of Terraform.res *)
  tfres_binaryPath : option string;
  tfres_connected : bool;
  (** [connected] ref of Pulumi.res *)
  pulumi_connected : bool
}.

Definition set_invocations (l : list Invocation) (w : World) : World :=
  mkWorld (os w) l (stderr_lines w) (tfjs_binaryPath w) (tfjs_connected w)
          (tfres_binaryPath w) (tfres_connected w) (pulumi_connected w).
Definition set_stderr_lines (l : list string) (w : World) : World :=
  mkWorld (os w) (invocations w) l (tfjs_binaryPath w) (tfjs_connected w)
          (tfres_binaryPath w) (tfres_connected w) (pulumi_connected w).
Definition set_tfjs_binaryPath (b : option string) (w : World) : World :=
  mkWorld (os w) (invocations w) (stderr_lines w) b (tfjs_connected w)
          (tfres_binaryPath w) (tfres_connected w) (pulumi_connected w).
Definition set_tfjs_connected (c : bool) (w : World) : World :=
  mkWorld (os w) (invocations w) (stderr_lines w) (tfjs_binaryPath w) c
          (tfres_binaryPath w) (tfres_connected w) (pulumi_connected w).
Definition set_tfres_binaryPath (b : option string) (w : World) : World :=
  mkWorld (os w) (invocations w) (stderr_lines w) (tfjs_binaryPath w)
          (tfjs_connected w) b (tfres_connected w) (pulumi_connected w).
Definition set_tfres_connected (c : bool) (w : World) : World :=
  mkWorld (os w) (invocations w) (stderr_lines w) (tfjs_binaryPath w)
          (tfjs_connected w) (tfres_binaryPath w) c (pulumi_connected w).
Definition set_pulumi_connected (c : bool) (w : World) : World :=
  mkWorld (os w) (invocations w) (stderr_lines w) (tfjs_binaryPath w)
          (tfjs_connected w) (tfres_binaryPath w) (tfres_connected w) c.

(* ===================================================================== *)
(** ** Effects: state passing with exceptions *)
(* ===================================================================== *)

(** A computation either returns or throws an [Error] with a message.  The
    [await]s of the source are sequential, so an async function is a
    function from the world to an outcome and the next world. *)
Inductive Outcome (A : Type) : Type :=
| Ok (a : A)
| Throw (message : string).
Arguments Ok {A} a.
Arguments Throw {A} message.

Definition Eff (A : Type) : Type := World → Outcome A * World.

Definition ret {A} (a : A) : Eff A := λ w, (Ok a, w).
Definition throw {A} (message : string) : Eff A := λ w, (Throw message, w).
Definition bind {A B} (c : Eff A) (k : A → Eff B) : Eff B :=
  λ w, match c w with
       | (Ok a, w') => k a w'
       | (Throw m, w') => (Throw m, w')
       end.
(** [try { c } catch (e) { h(e.message) }] *)
Definition try_catch {A} (c : Eff A) (h : string → Eff A) : Eff A :=
  λ w, match c w with
       | (Ok a, w') => (Ok a, w')
       | (Throw m, w') => h m w'
       end.
Definition modify (f : World → World) : Eff unit := λ w, (Ok tt, f w).
Definition gets {A} (f : World → A) : Eff A := λ w, (Ok (f w), w).

Declare Scope eff_scope.
Delimit Scope eff_scope with eff.
Notation "x <- c ;; k" := (bind c (λ x, k))
  (at level 100, c at next level, right associativity) : eff_scope.
Notation "c ;; k" := (bind c (λ _, k))
  (at level 100, right associativity) : eff_scope.
Local Open Scope eff_scope.

(** [console.error(line)] *)
Definition console_error (line : string) : Eff unit :=
  modify (λ w, set_stderr_lines (stderr_lines w ++ [line]) w).

(** The completed process as [Deno.Command.output()] reports it. *)
Record CommandOutput : Type := mkCommandOutput {
  out_code : Z;
  out_stdout : string;
  out_stderr : string
}.

(** [await new Deno.Command(binary, { args }).output()]: the invocation is
    logged, then the operating system decides. *)
Definition Deno_Command_output (binary : string) (args : list JS.Value)
  : Eff CommandOutput :=
  λ w, let i := mkInvocation binary args in
       let w' := set_invocations (invocations w ++ [i]) w in
       match os w (invocations w) i with
       | SpawnError m => (Throw m, w')
       | Exited code out err => (Ok (mkCommandOutput code out err), w')
       end.

(* ===================================================================== *)
(** ** Tools and adapters as the JavaScript entry point sees them *)
(* ===================================================================== *)

(** One entry of [inputSchema.properties]. *)
Record PropertySchema : Type := mkProperty {
  prop_type : string;
  prop_description : string;
  prop_default_value : option JS.Value
}.

Record InputSchema : Type := mkInputSchema {
  schema_type : string;
  schema_properties : list (string * PropertySchema);
  schema_required : list string
}.

(** An element of an adapter's [tools] array. *)
Record Tool : Type := mkTool {
  tool_name : string;
  tool_description : string;
  tool_inputSchema : InputSchema;
  tool_handler : Args → Eff JS.Value
}.

(** An adapter module as [index.js] imports it.  [adapter_tools] is [None]
    when the module has no [tools] export. *)
Record Adapter : Type := mkAdapter {
  adapter_name : string;
  adapter_description : string;
  adapter_connect : Eff JS.Value;
  adapter_disconnect : Eff unit;
  adapter_isConnected : Eff bool;
  adapter_tools : option (list Tool)
}.

(* ===================================================================== *)
(** ** adapters/terraform.js *)
(* ===================================================================== *)

Module TerraformJs.

Definition name : string := "terraform".
Definition description : string := "Terraform/OpenTofu Infrastructure as Code".

(** The body of the [for (const binary of ...)] loop of [detectBinary]:
    a zero exit code of [binary version] returns the binary, a spawn
    failure or another code moves on to the next one. *)
Fixpoint detectBinary_loop (binaries : list string) : Eff (option string) :=
  match binaries with
  | [] => ret None
  | binary :: rest =>
      found <- try_catch
                 (out <- Deno_Command_output binary [JS.Str "version"] ;;
                  ret (bool_decide (out_code out = 0)))
                 (λ _, ret false) ;;
      if found then ret (Some binary) else detectBinary_loop rest
  end.

Definition detectBinary : Eff (option string) :=
  detectBinary_loop ["tofu"; "terraform"].

(** [if (binaryPath)] on a value that is [null] or a string. *)
Definition binaryPath_truthy (b : option string) : bool :=
  match b with
  | Some s => negb (bool_decide (s = ""))
  | None => false
  end.

Definition connect : Eff JS.Value :=
  b <- detectBinary ;;
  modify (set_tfjs_binaryPath b) ;;
  if binaryPath_truthy b then
    modify (set_tfjs_connected true) ;;
    ret (JS.Obj [("success", JS.Bool true);
                 ("binary", match b with Some s => JS.Str s | None => JS.Null end)])
  else
    ret (JS.Obj [("success", JS.Bool false);
                 ("error", JS.Str "No Terraform/OpenTofu binary found")]).

Definition disconnect : Eff unit :=
  modify (set_tfjs_connected false) ;;
  modify (set_tfjs_binaryPath None).

Definition isConnected : Eff bool := gets tfjs_connected.

Definition runCommand (args : list JS.Value) : Eff JS.Value :=
  binaryPath <- gets tfjs_binaryPath ;;
  match binaryPath with
  | Some binary =>
      if negb (binaryPath_truthy binaryPath) then
        throw "Not connected to Terraform/OpenTofu"
      else
        out <- Deno_Command_output binary args ;;
        ret (JS.Obj [("success", JS.Bool (bool_decide (out_code out = 0)));
                     ("output", JS.Str (out_stdout out));
                     ("error", JS.Str (out_stderr out));
                     ("code", JS.Num (out_code out))])
  | None => throw "Not connected to Terraform/OpenTofu"
  end.

(** [args.push(x)] on the local argument array. *)
Definition push (args : list JS.Value) (x : JS.Value) : list JS.Value :=
  (args ++ [x])%list.

(** [if (c) args.push(x)] *)
Definition push_if (c : bool) (args : list JS.Value) (x : JS.Value)
  : list JS.Value :=
  if c then push args x else args.

Definition path_schema : string * PropertySchema :=
  ("path", mkProperty "string" "Path to the Terraform configuration directory" None).

Definition terraform_init_handler (a : Args) : Eff JS.Value :=
  let path := prop a "path" in
  let backend := prop_default a "backend" (JS.Bool true) in
  let upgrade := prop_default a "upgrade" (JS.Bool false) in
  let args := [JS.Str "init"] in
  let args := push_if (negb (JS.truthy backend)) args (JS.Str "-backend=false") in
  let args := push_if (JS.truthy upgrade) args (JS.Str "-upgrade") in
  let args := push args path in
  runCommand args.

(** The [for ... of Object.entries(vars)] loop of the plan handler. *)
Definition push_vars (args : list JS.Value) (entries : list (string * JS.Value))
  : list JS.Value :=
  foldl (λ args kv, push args (JS.Str ("-var=" +:+ kv.1 +:+ "=" +:+ JS.toString kv.2)))
        args entries.

Definition terraform_plan_handler (a : Args) : Eff JS.Value :=
  let path := prop a "path" in
  let out := prop a "out" in
  let vars := prop a "vars" in
  let args := [JS.Str "plan"] in
  let args := push_if (JS.truthy out) args (JS.Str ("-out=" +:+ JS.toString out)) in
  if JS.truthy vars then
    match JS.Object_entries vars with
    | Some entries =>
        let args := push_vars args entries in
        let args := push args path in
        runCommand args
    | None => throw "Cannot convert undefined or null to object"
    end
  else
    let args := push args path in
    runCommand args.

Definition terraform_apply_handler (a : Args) : Eff JS.Value :=
  let path := prop a "path" in
  let autoApprove := prop_default a "autoApprove" (JS.Bool false) in
  let args := [JS.Str "apply"] in
  let args := push_if (JS.truthy autoApprove) args (JS.Str "-auto-approve") in
  let args := push args path in
  runCommand args.

Definition terraform_destroy_handler (a : Args) : Eff JS.Value :=
  let path := prop a "path" in
  let autoApprove := prop_default a "autoApprove" (JS.Bool false) in
  let args := [JS.Str "destroy"] in
  let args := push_if (JS.truthy autoApprove) args (JS.Str "-auto-approve") in
  let args := push args path in
  runCommand args.

Definition terraform_output_handler (a : Args) : Eff JS.Value :=
  let name := prop a "name" in
  let json := prop_default a "json" (JS.Bool true) in
  let args := [JS.Str "output"] in
  let args := push_if (JS.truthy json) args (JS.Str "-json") in
  let args := push_if (JS.truthy name) args name in
  runCommand args.

Definition terraform_state_list_handler (a : Args) : Eff JS.Value :=
  let path := prop a "path" in
  runCommand [JS.Str "state"; JS.Str "list"].

Definition terraform_validate_handler (a : Args) : Eff JS.Value :=
  let path := prop a "path" in
  runCommand [JS.Str "validate"; path].

Definition terraform_fmt_handler (a : Args) : Eff JS.Value :=
  let path := prop a "path" in
  let check := prop_default a "check" (JS.Bool false) in
  let args := [JS.Str "fmt"] in
  let args := push_if (JS.truthy check) args (JS.Str "-check") in
  let args := push args path in
  runCommand args.

Definition tools : list Tool := [
  mkTool "terraform_init" "Initialize a Terraform/OpenTofu working directory"
    (mkInputSchema "object"
       [path_schema;
        ("backend", mkProperty "boolean" "Configure the backend for this configuration"
                      (Some (JS.Bool true)));
        ("upgrade", mkProperty "boolean" "Upgrade modules and plugins"
                      (Some (JS.Bool false)))]
       ["path"])
    terraform_init_handler;
  mkTool "terraform_plan" "Generate and show an execution plan"
    (mkInputSchema "object"
       [path_schema;
        ("out", mkProperty "string" "Write plan to a file" None);
        ("vars", mkProperty "object" "Variable values" None)]
       ["path"])
    terraform_plan_handler;
  mkTool "terraform_apply" "Apply infrastructure changes"
    (mkInputSchema "object"
       [("path", mkProperty "string" "Path to plan file or configuration directory" None);
        ("autoApprove", mkProperty "boolean" "Skip interactive approval"
                          (Some (JS.Bool false)))]
       ["path"])
    terraform_apply_handler;
  mkTool "terraform_destroy" "Destroy infrastructure managed by Terraform"
    (mkInputSchema "object"
       [path_schema;
        ("autoApprove", mkProperty "boolean" "Skip interactive approval"
                          (Some (JS.Bool false)))]
       ["path"])
    terraform_destroy_handler;
  mkTool "terraform_output" "Show output values from state"
    (mkInputSchema "object"
       [path_schema;
        ("name", mkProperty "string" "Specific output to retrieve" None);
        ("json", mkProperty "boolean" "Output in JSON format" (Some (JS.Bool true)))]
       ["path"])
    terraform_output_handler;
  mkTool "terraform_state_list" "List resources in the state"
    (mkInputSchema "object" [path_schema] ["path"])
    terraform_state_list_handler;
  mkTool "terraform_validate" "Validate the configuration files"
    (mkInputSchema "object" [path_schema] ["path"])
    terraform_validate_handler;
  mkTool "terraform_fmt" "Format configuration files"
    (mkInputSchema "object"
       [path_schema;
        ("check", mkProperty "boolean" "Check if files are formatted without modifying"
                    (Some (JS.Bool false)))]
       ["path"])
    terraform_fmt_handler
].

(** The module's exports, as an adapter object. *)
Definition adapter : Adapter :=
  mkAdapter name description connect disconnect isConnected (Some tools).

End TerraformJs.

(* ===================================================================== *)
(** ** The response envelope *)
(* ===================================================================== *)

(** [{ type: "text", text }].  The text is [None] when [JSON.stringify]
    returned [undefined]. *)
Record ContentItem : Type := mkContent {
  content_type : string;
  content_text : option string
}.

(** [{ content, isError }]; [isError] is [None] when the key is absent. *)
Record Envelope : Type := mkEnvelope {
  content : list ContentItem;
  isError : option bool
}.

(** The [try { ... } catch] around a handler call, identical in [index.js]
    and [main.js]: the serialised result, or an error envelope carrying the
    message of whatever the handler threw. *)
Definition call_handler (handler : Args → Eff JS.Value) (args : Args)
  : Eff Envelope :=
  try_catch
    (result <- handler args ;;
     ret (mkEnvelope [mkContent "text" (JS.JSON_stringify result)] None))
    (λ message,
     ret (mkEnvelope [mkContent "text" (Some ("Error: " +:+ message))] (Some true))).

(* ===================================================================== *)
(** ** index.js *)
(* ===================================================================== *)

Module IndexJs.

(** One element of the [tools] array of a listing. *)
Record ToolInfo : Type := mkToolInfo {
  info_name : string;
  info_description : string;
  info_inputSchema : InputSchema
}.

(** [adapter.tools?.find((t) => t.name === name)] *)
Definition find_tool (adapter : Adapter) (name : string) : option Tool :=
  match adapter_tools adapter with
  | Some tools => List.find (λ t, bool_decide (tool_name t = name)) tools
  | None => None
  end.

(** The [for (const adapter of adapters)] loop of the call handler with the
    fall-through return after it. *)
Fixpoint CallTool_loop (adapters : list Adapter) (name : string) (args : Args)
  : Eff Envelope :=
  match adapters with
  | [] =>
      ret (mkEnvelope [mkContent "text" (Some ("Unknown tool: " +:+ name))] (Some true))
  | adapter :: rest =>
      match find_tool adapter name with
      | Some tool => call_handler (tool_handler tool) args
      | None => CallTool_loop rest name args
      end
  end.

Section Server.
Variable adapters : list Adapter.

(** [const allTools = adapters.flatMap((adapter) => adapter.tools || [])],
    evaluated once when the module is loaded. *)
Definition allTools : list Tool :=
  flat_map (λ adapter, default [] (adapter_tools adapter)) adapters.

(** Handler of [ListToolsRequestSchema]. *)
Definition ListTools_handler : Eff (list ToolInfo) :=
  ret (map (λ tool, mkToolInfo (tool_name tool) (tool_description tool)
                               (tool_inputSchema tool))
           allTools).

(** Handler of [CallToolRequestSchema]. *)
Definition CallTool_handler (name : string) (args : Args) : Eff Envelope :=
  CallTool_loop adapters name args.
End Server.

(** The [adapters] array as the file has it: every adapter import is still
    commented out, so the handlers above are stated for any array. *)
Definition adapters : list Adapter := [].

End IndexJs.

(* ===================================================================== *)
(** ** The ReScript adapters *)
(* ===================================================================== *)

(** Modelled from the spec: the ReScript module [Adapter] that both
    adapters open ([toolDef], [paramDef], [stringParam], [boolParam]) is
    not among the sources.  A parameter carries the [type_] and
    [description] that [main.js] reads and that ParameterSpec lists; a tool
    definition carries [description], [params] and [handler]. *)
Record paramDef : Type := mkParamDef {
  type_ : string;
  param_description : string
}.

Definition stringParam (description : string) : paramDef :=
  mkParamDef "string" description.
Definition boolParam (description : string) : paramDef :=
  mkParamDef "boolean" description.

Record toolDef : Type := mkToolDef {
  def_description : string;
  def_params : gmap string paramDef;
  def_handler : Args → Eff JS.Value
}.

(** A compiled ReScript adapter module as [main.js] imports it. *)
Record ResAdapter : Type := mkResAdapter {
  res_name : string;
  res_description : string;
  res_connect : Eff unit;
  res_disconnect : Eff unit;
  res_isConnected : Eff bool;
  res_tools : gmap string toolDef
}.

(** [await Deno.Command.run(binary, args)] of the ReScript bindings: the
    triple [(code, stdout, stderr)], through the same process runner. *)
Definition Deno_Command_run (binary : string) (args : list string)
  : Eff (Z * string * string) :=
  out <- Deno_Command_output binary (map JS.Str args) ;;
  ret (out_code out, out_stdout out, out_stderr out).

(** [JSON.Decode.string] and [JSON.Decode.bool]. *)
Definition decode_string (v : JS.Value) : option string :=
  match v with JS.Str s => Some s | _ => None end.
Definition decode_bool (v : JS.Value) : option bool :=
  match v with JS.Bool b => Some b | _ => None end.

(** [args->Dict.get(k)->Option.flatMap(JSON.Decode.string)] *)
Definition get_string (a : Args) (k : string) : option string :=
  a !! k ≫= decode_string.
Definition get_bool (a : Args) (k : string) : option bool :=
  a !! k ≫= decode_bool.

(** The result object every ReScript Terraform call and most Pulumi calls
    build from the finished process. *)
Definition bool_of_code (code : Z) : JS.Value := JS.Bool (bool_decide (code = 0)).

(* --------------------------------------------------------------------- *)
(** *** Terraform.res *)
(* --------------------------------------------------------------------- *)

Module TerraformRes.

(** The [for i in 0 to Array.length(binaries) - 1] loop of [detectBinary]
    over the mutable [result]: a binary is probed only while no earlier one
    answered with exit code 0. *)
Fixpoint detectBinary_loop (binaries : list string) (result : option string)
  : Eff (option string) :=
  match binaries with
  | [] => ret result
  | binary :: rest =>
      result' <-
        match result with
        | None =>
            try_catch
              (r <- Deno_Command_run binary ["version"] ;;
               ret (if bool_decide (r.1.1 = 0) then Some binary else result))
              (λ _, ret result)
        | Some _ => ret result
        end ;;
      detectBinary_loop rest result'
  end.

Definition detectBinary : Eff (option string) :=
  detectBinary_loop ["tofu"; "terraform"] None.

Definition runCommand (args : list string) : Eff JS.Value :=
  binaryPath <- gets tfres_binaryPath ;;
  match binaryPath with
  | None =>
      ret (JS.Obj [("success", JS.Bool false);
                   ("error", JS.Str "Not connected to Terraform/OpenTofu")])
  | Some binary =>
      r <- Deno_Command_run binary args ;;
      ret (JS.Obj [("success", bool_of_code r.1.1);
                   ("output", JS.Str r.1.2);
                   ("error", JS.Str r.2);
                   ("code", JS.Num r.1.1)])
  end.

Definition name : string := "terraform".
Definition description : string := "Terraform/OpenTofu Infrastructure as Code".

Definition connect : Eff unit :=
  binary <- detectBinary ;;
  match binary with
  | Some b =>
      modify (set_tfres_binaryPath (Some b)) ;;
      modify (set_tfres_connected true)
  | None => throw "No Terraform/OpenTofu binary found"
  end.

Definition disconnect : Eff unit :=
  modify (set_tfres_connected false) ;;
  modify (set_tfres_binaryPath None).

Definition isConnected : Eff bool := gets tfres_connected.

(** [cmdArgs->Array.push(x)->ignore] *)
Definition push (cmdArgs : list string) (x : string) : list string :=
  (cmdArgs ++ [x])%list.

(** [if c { cmdArgs->Array.push(x)->ignore }] *)
Definition push_if (c : bool) (cmdArgs : list string) (x : string) : list string :=
  if c then push cmdArgs x else cmdArgs.

Definition initHandler (a : Args) : Eff JS.Value :=
  let path := default "." (get_string a "path") in
  let backend := default true (get_bool a "backend") in
  let upgrade := default false (get_bool a "upgrade") in
  let cmdArgs := ["init"] in
  let cmdArgs := push_if (negb backend) cmdArgs "-backend=false" in
  let cmdArgs := push_if upgrade cmdArgs "-upgrade" in
  let cmdArgs := push cmdArgs path in
  runCommand cmdArgs.

Definition planHandler (a : Args) : Eff JS.Value :=
  let path := default "." (get_string a "path") in
  let out := get_string a "out" in
  let cmdArgs := ["plan"] in
  let cmdArgs := match out with
                 | Some o => push cmdArgs ("-out=" +:+ o)
                 | None => cmdArgs
                 end in
  let cmdArgs := push cmdArgs path in
  runCommand cmdArgs.

Definition applyHandler (a : Args) : Eff JS.Value :=
  let path := default "." (get_string a "path") in
  let autoApprove := default false (get_bool a "autoApprove") in
  let cmdArgs := ["apply"] in
  let cmdArgs := push_if autoApprove cmdArgs "-auto-approve" in
  let cmdArgs := push cmdArgs path in
  runCommand cmdArgs.

Definition destroyHandler (a : Args) : Eff JS.Value :=
  let path := default "." (get_string a "path") in
  let autoApprove := default false (get_bool a "autoApprove") in
  let cmdArgs := ["destroy"] in
  let cmdArgs := push_if autoApprove cmdArgs "-auto-approve" in
  let cmdArgs := push cmdArgs path in
  runCommand cmdArgs.

Definition outputHandler (a : Args) : Eff JS.Value :=
  let outputName := get_string a "name" in
  let json := default true (get_bool a "json") in
  let cmdArgs := ["output"] in
  let cmdArgs := push_if json cmdArgs "-json" in
  let cmdArgs := match outputName with
                 | Some n => push cmdArgs n
                 | None => cmdArgs
                 end in
  runCommand cmdArgs.

Definition stateListHandler (_ : Args) : Eff JS.Value :=
  runCommand ["state"; "list"].

Definition validateHandler (a : Args) : Eff JS.Value :=
  let path := default "." (get_string a "path") in
  runCommand ["validate"; path].

Definition fmtHandler (a : Args) : Eff JS.Value :=
  let path := default "." (get_string a "path") in
  let check := default false (get_bool a "check") in
  let cmdArgs := ["fmt"] in
  let cmdArgs := push_if check cmdArgs "-check" in
  let cmdArgs := push cmdArgs path in
  runCommand cmdArgs.

Definition versionHandler (_ : Args) : Eff JS.Value :=
  runCommand ["version"].

Definition tools : gmap string toolDef :=
  let dict : gmap string toolDef := ∅ in
  let dict := <["terraform_init" :=
    mkToolDef "Initialize a Terraform/OpenTofu working directory"
      (list_to_map [("path", stringParam "Path to configuration directory");
                    ("backend", boolParam "Configure the backend");
                    ("upgrade", boolParam "Upgrade modules and plugins")])
      initHandler]> dict in
  let dict := <["terraform_plan" :=
    mkToolDef "Generate and show an execution plan"
      (list_to_map [("path", stringParam "Path to configuration directory");
                    ("out", stringParam "Write plan to a file")])
      planHandler]> dict in
  let dict := <["terraform_apply" :=
    mkToolDef "Apply infrastructure changes"
      (list_to_map [("path", stringParam "Path to plan file or configuration");
                    ("autoApprove", boolParam "Skip interactive approval")])
      applyHandler]> dict in
  let dict := <["terraform_destroy" :=
    mkToolDef "Destroy infrastructure managed by Terraform"
      (list_to_map [("path", stringParam "Path to configuration directory");
                    ("autoApprove", boolParam "Skip interactive approval")])
      destroyHandler]> dict in
  let dict := <["terraform_output" :=
    mkToolDef "Show output values from state"
      (list_to_map [("name", stringParam "Specific output to retrieve");
                    ("json", boolParam "Output in JSON format")])
      outputHandler]> dict in
  let dict := <["terraform_state_list" :=
    mkToolDef "List resources in the state" ∅ stateListHandler]> dict in
  let dict := <["terraform_validate" :=
    mkToolDef "Validate the configuration files"
      (list_to_map [("path", stringParam "Path to configuration directory")])
      validateHandler]> dict in
  let dict := <["terraform_fmt" :=
    mkToolDef "Format configuration files"
      (list_to_map [("path", stringParam "Path to configuration directory");
                    ("check", boolParam "Check without modifying")])
      fmtHandler]> dict in
  let dict := <["terraform_version" :=
    mkToolDef "Show Terraform/OpenTofu version" ∅ versionHandler]> dict in
  dict.

Definition adapter : ResAdapter :=
  mkResAdapter name description connect disconnect isConnected tools.

End TerraformRes.

(* --------------------------------------------------------------------- *)
(** *** Pulumi.res *)
(* --------------------------------------------------------------------- *)

(** [String.trim] on a byte string: the ASCII white space is stripped from
    both ends. *)
Definition is_space (c : ascii) : bool :=
  let n := N_of_ascii c in
  ((9 <=? n) && (n <=? 13) || (n =? 32))%N.

Fixpoint trim_start (s : string) : string :=
  match s with
  | EmptyString => EmptyString
  | String c rest => if is_space c then trim_start rest else s
  end.

Fixpoint trim_end (s : string) : string :=
  match s with
  | EmptyString => EmptyString
  | String c rest =>
      match trim_end rest with
      | EmptyString => if is_space c then EmptyString else String c EmptyString
      | rest' => String c rest'
      end
  end.

Definition String_trim (s : string) : string := trim_end (trim_start s).

Module Pulumi.

Definition name : string := "pulumi".
Definition description : string := "Pulumi Infrastructure as Code".

Definition runPulumiCmd (args : list string) : Eff (Z * string * string) :=
  Deno_Command_run "pulumi" args.

Definition connect : Eff unit :=
  r <- runPulumiCmd ["version"] ;;
  if bool_decide (r.1.1 = 0) then modify (set_pulumi_connected true)
  else throw "Pulumi CLI not found".

Definition disconnect : Eff unit := modify (set_pulumi_connected false).

Definition isConnected : Eff bool := gets pulumi_connected.

(** [cmdArgs] after the optional [--stack=${s}] and [--yes] pushes. *)
Definition push_stack (stack : option string) (cmdArgs : list string) : list string :=
  match stack with
  | Some s => (cmdArgs ++ ["--stack=" +:+ s])%list
  | None => cmdArgs
  end.

Definition push_yes (yes : bool) (cmdArgs : list string) : list string :=
  if yes then (cmdArgs ++ ["--yes"])%list else cmdArgs.

(** [JSON.Encode.object(Dict.fromArray([success, output, error]))] *)
Definition success_output_error (r : Z * string * string) : JS.Value :=
  JS.Obj [("success", bool_of_code r.1.1);
          ("output", JS.Str r.1.2);
          ("error", JS.Str r.2)].

Definition previewHandler (a : Args) : Eff JS.Value :=
  let stack := get_string a "stack" in
  let path := default "." (get_string a "path") in
  let cmdArgs := ["preview"; "--cwd"; path; "--json"] in
  let cmdArgs := push_stack stack cmdArgs in
  r <- runPulumiCmd cmdArgs ;;
  ret (success_output_error r).

Definition upHandler (a : Args) : Eff JS.Value :=
  let stack := get_string a "stack" in
  let path := default "." (get_string a "path") in
  let yes := default false (get_bool a "yes") in
  let cmdArgs := ["up"; "--cwd"; path; "--json"] in
  let cmdArgs := push_stack stack cmdArgs in
  let cmdArgs := push_yes yes cmdArgs in
  r <- runPulumiCmd cmdArgs ;;
  ret (success_output_error r).

Definition destroyHandler (a : Args) : Eff JS.Value :=
  let stack := get_string a "stack" in
  let path := default "." (get_string a "path") in
  let yes := default false (get_bool a "yes") in
  let cmdArgs := ["destroy"; "--cwd"; path; "--json"] in
  let cmdArgs := push_stack stack cmdArgs in
  let cmdArgs := push_yes yes cmdArgs in
  r <- runPulumiCmd cmdArgs ;;
  ret (success_output_error r).

Definition stackSelectHandler (a : Args) : Eff JS.Value :=
  match get_string a "stack" with
  | None => throw "stack parameter is required"
  | Some stack =>
      let path := default "." (get_string a "path") in
      r <- runPulumiCmd ["stack"; "select"; stack; "--cwd"; path] ;;
      ret (JS.Obj [("success", bool_of_code r.1.1);
                   ("stack", JS.Str stack);
                   ("error", JS.Str r.2)])
  end.

Definition stackInitHandler (a : Args) : Eff JS.Value :=
  match get_string a "stack" with
  | None => throw "stack parameter is required"
  | Some stack =>
      let path := default "." (get_string a "path") in
      r <- runPulumiCmd ["stack"; "init"; stack; "--cwd"; path] ;;
      ret (JS.Obj [("success", bool_of_code r.1.1);
                   ("stack", JS.Str stack);
                   ("output", JS.Str r.1.2);
                   ("error", JS.Str r.2)])
  end.

Definition refreshHandler (a : Args) : Eff JS.Value :=
  let stack := get_string a "stack" in
  let path := default "." (get_string a "path") in
  let yes := default false (get_bool a "yes") in
  let cmdArgs := ["refresh"; "--cwd"; path; "--json"] in
  let cmdArgs := push_stack stack cmdArgs in
  let cmdArgs := push_yes yes cmdArgs in
  r <- runPulumiCmd cmdArgs ;;
  ret (success_output_error r).

Definition configSetHandler (a : Args) : Eff JS.Value :=
  match get_string a "key" with
  | None => throw "key parameter is required"
  | Some key =>
      match get_string a "value" with
      | None => throw "value parameter is required"
      | Some value =>
          let secret := default false (get_bool a "secret") in
          let path := default "." (get_string a "path") in
          let cmdArgs := ["config"; "set"; key; value; "--cwd"; path] in
          let cmdArgs := if secret then (cmdArgs ++ ["--secret"])%list else cmdArgs in
          r <- runPulumiCmd cmdArgs ;;
          ret (JS.Obj [("success", bool_of_code r.1.1);
                       ("key", JS.Str key);
                       ("error", JS.Str r.2)])
      end
  end.

Definition configGetHandler (a : Args) : Eff JS.Value :=
  match get_string a "key" with
  | None => throw "key parameter is required"
  | Some key =>
      let path := default "." (get_string a "path") in
      r <- runPulumiCmd ["config"; "get"; key; "--cwd"; path] ;;
      ret (JS.Obj [("success", bool_of_code r.1.1);
                   ("key", JS.Str key);
                   ("value", JS.Str (String_trim r.1.2));
                   ("error", JS.Str r.2)])
  end.

Definition versionHandler (_ : Args) : Eff JS.Value :=
  r <- runPulumiCmd ["version"] ;;
  ret (JS.Obj [("success", bool_of_code r.1.1);
               ("version", JS.Str (String_trim r.1.2));
               ("error", JS.Str r.2)]).

Section Parsing.
(** [JSON.parseExn]: the parsed value, or [None] when it raises. *)
Variable JSON_parseExn : string → option JS.Value.

Definition failure (stderr : string) : JS.Value :=
  JS.Obj [("success", JS.Bool false); ("error", JS.Str stderr)].

Definition stackListHandler (a : Args) : Eff JS.Value :=
  let path := default "." (get_string a "path") in
  r <- runPulumiCmd ["stack"; "ls"; "--cwd"; path; "--json"] ;;
  if bool_decide (r.1.1 = 0) then
    match JSON_parseExn r.1.2 with
    | Some v => ret v
    | None => ret (JS.Obj [("stacks", JS.Str r.1.2)])
    end
  else ret (failure r.2).

Definition stackOutputHandler (a : Args) : Eff JS.Value :=
  let stack := get_string a "stack" in
  let path := default "." (get_string a "path") in
  let cmdArgs := ["stack"; "output"; "--cwd"; path; "--json"] in
  let cmdArgs := push_stack stack cmdArgs in
  r <- runPulumiCmd cmdArgs ;;
  if bool_decide (r.1.1 = 0) then
    match JSON_parseExn r.1.2 with
    | Some v => ret v
    | None => ret (JS.Obj [("outputs", JS.Str r.1.2)])
    end
  else ret (failure r.2).

Definition tools : gmap string toolDef :=
  list_to_map [
    ("pulumi_preview",
     mkToolDef "Preview changes to infrastructure"
       (list_to_map [("path", stringParam "Path to Pulumi project");
                     ("stack", stringParam "Stack name to preview")])
       previewHandler);
    ("pulumi_up",
     mkToolDef "Deploy infrastructure changes"
       (list_to_map [("path", stringParam "Path to Pulumi project");
                     ("stack", stringParam "Stack name to deploy");
                     ("yes", boolParam "Skip confirmation prompt")])
       upHandler);
    ("pulumi_destroy",
     mkToolDef "Destroy infrastructure"
       (list_to_map [("path", stringParam "Path to Pulumi project");
                     ("stack", stringParam "Stack name to destroy");
                     ("yes", boolParam "Skip confirmation prompt")])
       destroyHandler);
    ("pulumi_stack_list",
     mkToolDef "List all stacks"
       (list_to_map [("path", stringParam "Path to Pulumi project")])
       stackListHandler);
    ("pulumi_stack_select",
     mkToolDef "Select a stack"
       (list_to_map [("stack", stringParam "Stack name to select");
                     ("path", stringParam "Path to Pulumi project")])
       stackSelectHandler);
    ("pulumi_stack_init",
     mkToolDef "Create a new stack"
       (list_to_map [("stack", stringParam "Stack name to create");
                     ("path", stringParam "Path to Pulumi project")])
       stackInitHandler);
    ("pulumi_stack_output",
     mkToolDef "Get stack outputs"
       (list_to_map [("stack", stringParam "Stack name");
                     ("path", stringParam "Path to Pulumi project")])
       stackOutputHandler);
    ("pulumi_refresh",
     mkToolDef "Refresh state from cloud"
       (list_to_map [("path", stringParam "Path to Pulumi project");
                     ("stack", stringParam "Stack name");
                     ("yes", boolParam "Skip confirmation prompt")])
       refreshHandler);
    ("pulumi_config_set",
     mkToolDef "Set a configuration value"
       (list_to_map [("key", stringParam "Configuration key");
                     ("value", stringParam "Configuration value");
                     ("secret", boolParam "Encrypt the value");
                     ("path", stringParam "Path to Pulumi project")])
       configSetHandler);
    ("pulumi_config_get",
     mkToolDef "Get a configuration value"
       (list_to_map [("key", stringParam "Configuration key");
                     ("path", stringParam "Path to Pulumi project")])
       configGetHandler);
    ("pulumi_version",
     mkToolDef "Show Pulumi version" ∅ versionHandler)
  ].

Definition adapter : ResAdapter :=
  mkResAdapter name description connect disconnect isConnected tools.
End Parsing.

End Pulumi.

(* ===================================================================== *)
(** ** main.js *)
(* ===================================================================== *)

Module MainJs.

Definition VERSION : string := "1.2.0".

(** One property of the [inputSchema] that [main] builds for a tool. *)
Record SchemaProperty : Type := mkSchemaProperty {
  sp_type : string;
  sp_description : string
}.

Record ObjectSchema : Type := mkObjectSchema {
  os_type : string;
  os_properties : gmap string SchemaProperty
}.

(** What [server.tool(name, description, inputSchema, callback)] records
    under [name] in the MCP server. *)
Record Registered : Type := mkRegistered {
  reg_description : string;
  reg_inputSchema : ObjectSchema;
  reg_callback : Args → Eff Envelope
}.

(** [for (const [name, def] of Object.entries(tools)) allTools[name] = def] *)
Definition merge_tools (tools allTools : gmap string toolDef)
  : gmap string toolDef :=
  foldl (λ allTools entry, <[entry.1 := entry.2]> allTools)
        allTools (map_to_list tools).

(** The [for (const adapter of adapters)] loop of [main] over the two
    accumulators [connectedAdapters] and [allTools]. *)
Fixpoint connect_loop (adapters : list ResAdapter)
    (connectedAdapters : list ResAdapter) (allTools : gmap string toolDef)
  : Eff (list ResAdapter * gmap string toolDef) :=
  match adapters with
  | [] => ret (connectedAdapters, allTools)
  | adapter :: rest =>
      st <- try_catch
              (res_connect adapter ;;
               ret ((connectedAdapters ++ [adapter])%list,
                    merge_tools (res_tools adapter) allTools))
              (λ message,
               console_error ("Failed to connect " +:+ res_name adapter
                              +:+ ": " +:+ message) ;;
               ret (connectedAdapters, allTools)) ;;
      connect_loop rest st.1 st.2
  end.

(** The inner loop over [Object.entries(tool.params)]. *)
Definition build_inputSchema (params : gmap string paramDef) : ObjectSchema :=
  mkObjectSchema "object"
    (foldl (λ properties entry,
              <[entry.1 := mkSchemaProperty (type_ entry.2)
                                            (param_description entry.2)]> properties)
           ∅ (map_to_list params)).

(** The callback registered for a tool. *)
Definition tool_callback (tool : toolDef) : Args → Eff Envelope :=
  call_handler (def_handler tool).

(** The [for (const [name, tool] of Object.entries(allTools))] loop: one
    [server.tool] registration per entry. *)
Definition register_tools (allTools : gmap string toolDef)
  : gmap string Registered :=
  foldl (λ server entry,
           <[entry.1 := mkRegistered (def_description entry.2)
                                     (build_inputSchema (def_params entry.2))
                                     (tool_callback entry.2)]> server)
        ∅ (map_to_list allTools).

Record Started : Type := mkStarted {
  connectedAdapters : list ResAdapter;
  allTools : gmap string toolDef;
  server_tools : gmap string Registered
}.

(** How the process stands once [main().catch(console.error)] has settled:
    the server is connected to its transport and serves the registered
    tools, or [main] was rejected, the rejection was logged by the [catch]
    and the runtime, left with nothing to wait for, ends the process with
    its ordinary exit status 0. *)
Inductive ProcessStatus : Type :=
| Serving (started : Started)
| Finished (exit_code : Z).

Section Main.
(** The adapter modules imported at the top of the file. *)
Variable adapters : list ResAdapter.
(** [await server.connect(transport)] of the MCP SDK. *)
Variable server_connect : Eff unit.

Definition main : Eff Started :=
  st <- connect_loop adapters [] ∅ ;;
  let connectedAdapters := st.1 in
  let allTools := st.2 in
  let server := register_tools allTools in
  server_connect ;;
  console_error ("poly-iac-mcp v" +:+ VERSION +:+ " (STDIO mode)") ;;
  console_error (pretty (length connectedAdapters) +:+ " adapter(s) connected") ;;
  console_error (pretty (size allTools) +:+ " tools registered") ;;
  console_error "Feedback: https://github.com/hyperpolymath/poly-iac-mcp/issues" ;;
  ret (mkStarted connectedAdapters allTools server).

(** [main().catch(console.error)] *)
Definition launch (w : World) : ProcessStatus * World :=
  match main w with
  | (Ok started, w') => (Serving started, w')
  | (Throw message, w') => (Finished 0, (console_error message w').2)
  end.
End Main.

(** [const adapters = [Terraform, Pulumi]] *)
Definition adapters (JSON_parseExn : string → option JS.Value) : list ResAdapter :=
  [TerraformRes.adapter; Pulumi.adapter JSON_parseExn].

End MainJs.

(* ===================================================================== *)
(** ** Vocabulary of the properties *)
(* ===================================================================== *)

(** *** Worlds *)

(** The world when the modules have just been loaded: nothing invoked,
    nothing logged, no binary resolved, no adapter connected. *)
Definition initial_world (os : list Invocation → Invocation → ProcOutcome) : World :=
  mkWorld os [] [] None false None false false.

(** An operating system on which every process exits the same way. *)
Definition os_always (o : ProcOutcome) : list Invocation → Invocation → ProcOutcome :=
  λ _ _, o.

(** An operating system that has [tofu] only: every other binary fails to
    spawn. *)
Definition os_tofu_only (o : ProcOutcome) : list Invocation → Invocation → ProcOutcome :=
  λ _ i, if bool_decide (inv_binary i = "tofu") then o
         else SpawnError "No such file or directory".

(** A world in which terraform.js has resolved [tofu] and every process
    exits with code 0. *)
Definition tofu_world : World :=
  set_tfjs_connected true
    (set_tfjs_binaryPath (Some "tofu") (initial_world (os_always (Exited 0 "ok" "")))).

(** The third end-to-end scenario: the process exits with code 1 and the
    standard error [no such stack]. *)
Definition failing_world : World :=
  set_tfjs_connected true
    (set_tfjs_binaryPath (Some "tofu")
       (initial_world (os_always (Exited 1 "" "no such stack")))).

(** The first end-to-end scenario: only [tofu] is installed, so the
    Terraform adapter connects and the Pulumi adapter does not. *)
Definition scenario_world : World :=
  initial_world (os_tofu_only (Exited 0 "OpenTofu v1.8.0" "")).

Definition scenario_adapters : list ResAdapter := MainJs.adapters (λ _, None).

(** A machine on which no binary can be spawned. *)
Definition bare_world : World :=
  initial_world (os_always (SpawnError "No such file or directory")).

(** A world in which terraform.js has resolved the binary [b]. *)
Definition resolved (w : World) (b : string) : Prop :=
  tfjs_binaryPath w = Some b ∧ b ≠ "".

(** *** Results and their text *)

(** A result object with the four properties [success], [output], [error]
    and [code], in that order. *)
Definition result_object (success : bool) (out err : string) (code : Z) : JS.Value :=
  JS.Obj [("success", JS.Bool success);
          ("output", JS.Str out);
          ("error", JS.Str err);
          ("code", JS.Num code)].

(** The result object of [runCommand] for a finished process. *)
Definition command_result (code : Z) (stdout stderr : string) : JS.Value :=
  result_object (bool_decide (code = 0)) stdout stderr code.

(** The text [JSON.stringify(result, null, 2)] produces for a result
    object. *)
Definition result_text (success : bool) (out err : string) (code : Z) : string :=
  "{" +:+ JS.newline +:+
  "  " +:+ JS.quote "success" +:+ ": " +:+ (if success then "true" else "false")
       +:+ "," +:+ JS.newline +:+
  "  " +:+ JS.quote "output" +:+ ": " +:+ JS.quote out +:+ "," +:+ JS.newline +:+
  "  " +:+ JS.quote "error" +:+ ": " +:+ JS.quote err +:+ "," +:+ JS.newline +:+
  "  " +:+ JS.quote "code" +:+ ": " +:+ pretty code +:+ JS.newline +:+
  "}".

(** A quoted string followed by [rest]. *)
Definition quoted (s rest : string) : string :=
  String JS.dquote (JS.quote_chars s +:+ String JS.dquote rest).

(** The layout of one member of a serialised object: a line break, two
    spaces, the quoted key, a colon and a space. *)
Definition member_line (k : string) (rest : string) : string :=
  String "010" (String " " (String " " (quoted k (String ":" (String " " rest))))).

(** *** Argument vectors *)

Definition auto_approve : JS.Value := JS.Str "-auto-approve".


(** [built_by h a w b argv]: run on the arguments [a] in the world [w], the
    handler [h] invokes the binary [b] once, with the argument vector
    [argv], and nothing else. *)
Definition built_by (h : Args → Eff JS.Value) (a : Args) (w : World)
    (b : string) (argv : list JS.Value) : Prop :=
  invocations (h a w).2 = invocations w ++ [mkInvocation b argv].

Definition approve_args : Args :=
  {[ "path" := JS.Str "infra"; "autoApprove" := JS.Bool true ]}.
Definition plain_args : Args := {[ "path" := JS.Str "infra" ]}.


(** Arguments in which [autoApprove] is the string [false]. *)
Definition string_false_args : Args :=
  {[ "path" := JS.Str "infra"; "autoApprove" := JS.Str "false" ]}.

(** Arguments of a secret configuration value. *)
Definition secret_args : Args :=
  {[ "key" := JS.Str "db password"; "value" := JS.Str "p w"; "secret" := JS.Bool true ]}.

(** *** Start-up *)

(** The table after the tools of the adapters in [connected] have been
    merged, in order, into [table]. *)
Definition merged_into (table : gmap string toolDef) (connected : list ResAdapter)
  : gmap string toolDef :=
  foldl (λ table adapter, MainJs.merge_tools (res_tools adapter) table)
        table connected.

(** The diagnostic of the [catch] in the connection loop. *)
Definition connect_failure_line (adapter : ResAdapter) (message : string) : string :=
  "Failed to connect " +:+ res_name adapter +:+ ": " +:+ message.

(** [connects w adapters connected w']: starting in [w], the adapters are
    asked to connect one after the other; those whose [connect] returns
    are [connected], in order; one whose [connect] throws is left out,
    leaves its diagnostic on the error stream, and the others are still
    asked. *)
Inductive connects : World → list ResAdapter → list ResAdapter → World → Prop :=
| connects_done w :
    connects w [] [] w
| connects_ok w w1 w' adapter rest connected :
    res_connect adapter w = (Ok tt, w1) →
    connects w1 rest connected w' →
    connects w (adapter :: rest) (adapter :: connected) w'
| connects_failed w w1 w' message adapter rest connected :
    res_connect adapter w = (Throw message, w1) →
    connects (set_stderr_lines
                (stderr_lines w1 ++ [connect_failure_line adapter message]) w1)
             rest connected w' →
    connects w (adapter :: rest) connected w'.

(** The lines [main] writes after connecting the transport when nothing is
    connected. *)
Definition banner_lines : list string :=
  ["poly-iac-mcp v1.2.0 (STDIO mode)";
   "0 adapter(s) connected";
   "0 tools registered";
   "Feedback: https://github.com/hyperpolymath/poly-iac-mcp/issues"].

(** *** Two adapters that list the same tool name *)

Definition no_schema : InputSchema := mkInputSchema "object" [] [].

(** Two adapters of the [index.js] shape, each with a tool [deploy]; the
    handlers answer with the name of their adapter. *)
Definition deploy_of (who : string) : Tool :=
  mkTool "deploy" "Deploy" no_schema (λ _, ret (JS.Str who)).

Definition adapter_of (who : string) : Adapter :=
  mkAdapter who "" (ret JS.Undefined) (ret tt) (ret true) (Some [deploy_of who]).

(** The same pair in the [main.js] shape. *)
Definition deploy_def (who : string) : toolDef :=
  mkToolDef "Deploy" ∅ (λ _, ret (JS.Str who)).

Definition res_adapter_of (who : string) : ResAdapter :=
  mkResAdapter who "" (ret tt) (ret tt) (ret true) {[ "deploy" := deploy_def who ]}.

(** *** Listing *)

(** The listing entry of a tool. *)
Definition info_of (tool : Tool) : IndexJs.ToolInfo :=
  IndexJs.mkToolInfo (tool_name tool) (tool_description tool) (tool_inputSchema tool).

(** *** Probing and envelopes *)

(** The probe both Terraform adapters run on a candidate binary. *)
Definition probe (binary : string) : Invocation :=
  mkInvocation binary [JS.Str "version"].

(** Whether a probe counts as found: the process ran and exited with
    code 0. *)
Definition probe_ok (o : ProcOutcome) : bool :=
  match o with
  | Exited code _ _ => bool_decide (code = 0)
  | SpawnError _ => false
  end.

(** The envelope the [catch] of the call boundary builds. *)
Definition error_envelope (message : string) : Envelope :=
  mkEnvelope [mkContent "text" (Some ("Error: " +:+ message))] (Some true).

(** The envelope of the fall-through return of [index.js]. *)
Definition unknown_envelope (name : string) : Envelope :=
  mkEnvelope [mkContent "text" (Some ("Unknown tool: " +:+ name))] (Some true).

(** The argument the plan handler writes for one entry of [vars]. *)
Definition var_argument (entry : string * JS.Value) : JS.Value :=
  JS.Str ("-var=" +:+ entry.1 +:+ "=" +:+ JS.toString entry.2).

(** An optional boolean argument that is either left out or a boolean. *)
Definition boolean_or_absent (a : Args) (k : string) : Prop :=
  a !! k = None ∨ ∃ b, a !! k = Some (JS.Bool b).

(** The value such an argument stands for, given its default. *)
Definition boolean_value (a : Args) (k : string) (d : bool) : bool :=
  match a !! k with
  | Some (JS.Bool b) => b
  | _ => d
  end.

(** A world in which [connected] of terraform.js is still true from an
    earlier connection, on a machine that has lost its binaries. *)
Definition stale_world : World :=
  set_tfjs_connected true (set_tfjs_binaryPath (Some "tofu") bare_world).

(** A machine that has [terraform] but not [tofu]. *)
Definition terraform_only_world : World :=
  initial_world
    (λ _ i, if bool_decide (inv_binary i = "terraform") then Exited 0 "Terraform v1.9" ""
            else SpawnError "No such file or directory").

(* ===================================================================== *)
(** ** Reading back what [JSON.stringify] wrote *)
(* ===================================================================== *)

Section Reading.
Import JS.

Lemma string_app_nil_l (s : string) : "" +:+ s = s.
Proof. reflexivity. Qed.

Lemma string_app_cons (c : ascii) (s t : string) :
  String c s +:+ t = String c (s +:+ t).
Proof. reflexivity. Qed.

Lemma string_app_assoc (s t u : string) : (s +:+ t) +:+ u = s +:+ (t +:+ u).
Proof.
  induction s as [|c s IH]; [reflexivity|].
  by rewrite !string_app_cons, IH.
Qed.

Ltac string_norm :=
  repeat (rewrite string_app_cons || rewrite string_app_nil_l).

Ltac string_flat :=
  repeat (rewrite string_app_cons || rewrite string_app_nil_l
          || rewrite string_app_assoc).

Lemma unicode_escape_hex n :
  (n < 32)%N →
  unicode_escape "0" "0" (hex_digit (n / 16)) (hex_digit (n mod 16)) =
    Some (ascii_of_N n).
Proof.
  intros Hn.
  destruct n as [|p]; [reflexivity|].
  do 5 (destruct p as [p|p|]; try reflexivity); lia.
Qed.

(** Reading one character that stands for itself. *)
Lemma read_string_plain c t :
  (N_of_ascii c =? 34)%N = false → (N_of_ascii c =? 92)%N = false →
  (N_of_ascii c <? 32)%N = false →
  read_string (String c t) =
    match read_string t with
    | Some (str, after) => Some (String c str, after)
    | None => None
    end.
Proof. intros H1 H2 H3. cbn [read_string]. by rewrite H1, H2, H3. Qed.

Ltac special_char E Hc H :=
  apply N.eqb_eq in E; rewrite E in Hc; subst;
  string_norm; cbn; rewrite H; reflexivity.

(** What [quote_char] writes for a character is read back as that
    character. *)
Lemma read_string_quote_char c t s rest :
  read_string t = Some (s, rest) →
  read_string (quote_char c +:+ t) = Some (String c s, rest).
Proof.
  intros H. unfold quote_char.
  pose proof (ascii_N_embedding c) as Hc.
  destruct (N_of_ascii c =? 8)%N eqn:E8; [special_char E8 Hc H|].
  destruct (N_of_ascii c =? 9)%N eqn:E9; [special_char E9 Hc H|].
  destruct (N_of_ascii c =? 10)%N eqn:E10; [special_char E10 Hc H|].
  destruct (N_of_ascii c =? 12)%N eqn:E12; [special_char E12 Hc H|].
  destruct (N_of_ascii c =? 13)%N eqn:E13; [special_char E13 Hc H|].
  destruct (N_of_ascii c =? 34)%N eqn:E34; [special_char E34 Hc H|].
  destruct (N_of_ascii c =? 92)%N eqn:E92; [special_char E92 Hc H|].
  destruct (N_of_ascii c <? 32)%N eqn:E32.
  - apply N.ltb_lt in E32. string_norm.
    cbn [read_string].
    change (N_of_ascii "\" =? 34)%N with false.
    change (N_of_ascii "\" =? 92)%N with true.
    change (N_of_ascii "u" =? 98)%N with false.
    change (N_of_ascii "u" =? 116)%N with false.
    change (N_of_ascii "u" =? 110)%N with false.
    change (N_of_ascii "u" =? 102)%N with false.
    change (N_of_ascii "u" =? 114)%N with false.
    change (N_of_ascii "u" =? 34)%N with false.
    change (N_of_ascii "u" =? 92)%N with false.
    change (N_of_ascii "u" =? 47)%N with false.
    change (N_of_ascii "u" =? 117)%N with true.
    cbv iota.
    rewrite (unicode_escape_hex _ E32), Hc, H. reflexivity.
  - string_norm. rewrite read_string_plain by done. by rewrite H.
Qed.

(** A string literal written by [quote] is read back as the string. *)
Lemma read_string_quote_chars s rest :
  read_string (quote_chars s +:+ String dquote rest) = Some (s, rest).
Proof.
  induction s as [|c s IH]; [reflexivity|].
  cbn [quote_chars]. rewrite string_app_assoc.
  by apply read_string_quote_char.
Qed.

Lemma digit_value_char d :
  (d < 10)%N → digit_value (pretty_N_char d) = Some d.
Proof.
  intros Hd. destruct d as [|p]; [reflexivity|].
  do 4 (destruct p as [p|p|]; try reflexivity); lia.
Qed.

(** The decimal digits written for a positive number start with a non-zero
    digit. *)
Lemma pretty_N_go_first x :
  (0 < x)%N → ∀ s, ∃ d tail,
    (1 ≤ d ≤ 9)%N ∧ pretty_N_go x s = String (pretty_N_char d) tail.
Proof.
  induction (N.lt_wf_0 x) as [x _ IH]. intros Hx s.
  rewrite pretty_N_go_step by done.
  destruct (decide (x `div` 10 = 0)%N) as [Hq | Hq].
  - rewrite Hq, pretty_N_go_0. exists (x `mod` 10)%N, s. split; [|done].
    pose proof (N.div_mod x 10 ltac:(lia)).
    pose proof (N.mod_lt x 10 ltac:(lia)). lia.
  - apply IH; [apply N.div_lt; lia | by apply N.neq_0_lt_0].
Qed.

(** Reading the digits written for a number adds the number to the
    accumulator, shifted by as many places as there are digits. *)
Lemma read_digits_pretty_N_go x :
  (0 < x)%N → ∀ s acc rest, ∃ k,
    read_digits acc (pretty_N_go x s +:+ rest) =
      read_digits (acc * 10 ^ k + x) (s +:+ rest).
Proof.
  induction (N.lt_wf_0 x) as [x _ IH]. intros Hx s acc rest.
  rewrite pretty_N_go_step by done.
  pose proof (N.div_mod x 10 ltac:(lia)) as Hdm.
  pose proof (N.mod_lt x 10 ltac:(lia)) as Hm.
  destruct (decide (x `div` 10 = 0)%N) as [Hq | Hq].
  - rewrite Hq, pretty_N_go_0. exists 1%N.
    rewrite string_app_cons. cbn [read_digits].
    rewrite digit_value_char by lia. f_equal. lia.
  - destruct (IH (x `div` 10)%N) with
      (s := String (pretty_N_char (x `mod` 10)) s) (acc := acc) (rest := rest)
      as [k Hk]; [apply N.div_lt; lia | by apply N.neq_0_lt_0 |].
    exists (N.succ k). rewrite Hk, string_app_cons. cbn [read_digits].
    rewrite digit_value_char by lia. f_equal.
    rewrite N.pow_succ_r'. lia.
Qed.

Lemma read_natural_pretty x r :
  (0 < x)%N →
  read_natural (pretty_N_go x "" +:+ String "010" r) = Some (x, String "010" r).
Proof.
  intros Hx.
  destruct (read_digits_pretty_N_go x Hx "" 0%N (String "010" r)) as [k Hk].
  destruct (pretty_N_go_first x Hx "") as (d & tail & Hd & Htail).
  rewrite Htail in *. rewrite string_app_cons in *.
  unfold read_natural. rewrite digit_value_char by lia.
  cbn [read_digits] in Hk. rewrite digit_value_char in Hk by lia.
  replace (10 * 0 + d)%N with d in Hk by lia.
  rewrite Hk. replace (0 * 10 ^ k + x)%N with x by lia.
  destruct d as [|p]; [lia|]. reflexivity.
Qed.

Lemma read_value_leading_digit fuel d text :
  (1 ≤ d ≤ 9)%N →
  read_value (S fuel) (String " " (String (pretty_N_char d) text)) =
    match read_natural (String (pretty_N_char d) text) with
    | Some (m, after) => Some (Num (Z.of_N m), after)
    | None => None
    end.
Proof.
  intros Hd.
  assert (d = 1 ∨ d = 2 ∨ d = 3 ∨ d = 4 ∨ d = 5 ∨ d = 6 ∨ d = 7 ∨ d = 8 ∨ d = 9)%N
    as Hcases by lia.
  destruct Hcases as [-> | [-> | [-> | [-> | [-> | [-> | [-> | [-> | ->]]]]]]]];
    reflexivity.
Qed.

Lemma read_value_minus fuel text :
  read_value (S fuel) (String " " (String "-" text)) =
    match read_natural text with
    | Some (m, after) => Some (Num (- Z.of_N m), after)
    | None => None
    end.
Proof. reflexivity. Qed.

(** A number written by [pretty] and followed by a line break is read back
    as the number. *)
Lemma read_value_number fuel z r :
  read_value (S fuel) (String " " (pretty z +:+ String "010" r)) =
    Some (Num z, String "010" r).
Proof.
  destruct z as [|p|p].
  - reflexivity.
  - change (pretty (Z.pos p)) with (pretty_N_go (N.pos p) "").
    pose proof (read_natural_pretty (N.pos p) r eq_refl) as Hnat.
    destruct (pretty_N_go_first (N.pos p) eq_refl "") as (d & tail & Hd & Htail).
    rewrite Htail in *. rewrite string_app_cons in *.
    rewrite read_value_leading_digit by done. by rewrite Hnat.
  - change (pretty (Z.neg p)) with ("-" +:+ pretty_N_go (N.pos p) "").
    pose proof (read_natural_pretty (N.pos p) r eq_refl) as Hnat.
    string_norm. rewrite read_value_minus. by rewrite Hnat.
Qed.

Lemma read_value_string fuel s rest :
  read_value (S fuel) (String " " (quoted s rest)) = Some (Str s, rest).
Proof.
  unfold quoted.
  transitivity
    (match read_string (quote_chars s +:+ String dquote rest) with
     | Some (str, after) => Some (Str str, after)
     | None => None
     end); [reflexivity|].
  by rewrite read_string_quote_chars.
Qed.

Lemma read_value_bool fuel (b : bool) rest :
  read_value (S fuel) (String " " ((if b then "true" else "false") +:+ rest)) =
    Some (Bool b, rest).
Proof. destruct b; reflexivity. Qed.

(** Reading one member line: the key, then the value, then either a comma
    and the next member or the closing brace. *)
Lemma read_members_line fuel acc k rest :
  read_members (S fuel) acc (member_line k rest) =
    match read_value fuel (String " " rest) with
    | Some (v, after_value) =>
        match skip_ws after_value with
        | String sep after_sep =>
            if (N_of_ascii sep =? 44)%N
            then read_members fuel (set_property acc k v) after_sep
            else if (N_of_ascii sep =? 125)%N
            then Some (set_property acc k v, after_sep)
            else None
        | EmptyString => None
        end
    | None => None
    end.
Proof.
  unfold member_line, quoted.
  transitivity
    (match read_string (quote_chars k +:+ String dquote (String ":" (String " " rest))) with
     | Some (k, after_key) =>
         match skip_ws after_key with
         | String colon after_colon =>
             if (N_of_ascii colon =? 58)%N then
               match read_value fuel after_colon with
               | Some (v, after_value) =>
                   let acc := set_property acc k v in
                   match skip_ws after_value with
                   | String sep after_sep =>
                       if (N_of_ascii sep =? 44)%N
                       then read_members fuel acc after_sep
                       else if (N_of_ascii sep =? 125)%N
                       then Some (acc, after_sep)
                       else None
                   | EmptyString => None
                   end
               | None => None
               end
             else None
         | EmptyString => None
         end
     | None => None
     end); [reflexivity|].
  rewrite read_string_quote_chars. reflexivity.
Qed.

Lemma read_members_then fuel acc k rest v next :
  read_value fuel (String " " rest) = Some (v, String "," next) →
  read_members (S fuel) acc (member_line k rest) =
    read_members fuel (set_property acc k v) next.
Proof. intros H. rewrite read_members_line, H. reflexivity. Qed.

Lemma read_members_last fuel acc k rest v next :
  read_value fuel (String " " rest) = Some (v, String "010" (String "}" next)) →
  read_members (S fuel) acc (member_line k rest) =
    Some (set_property acc k v, next).
Proof. intros H. rewrite read_members_line, H. reflexivity. Qed.

(** The serialisation of a result object is its [result_text]. *)
Lemma stringify_result success out err code :
  JSON_stringify (result_object success out err code) =
    Some (result_text success out err code).
Proof.
  unfold JSON_stringify, result_object, result_text.
  cbn [serialize join_members default].
  destruct success; cbn [join_members]; string_flat; reflexivity.
Qed.

Lemma result_text_layout success out err code :
  result_text success out err code =
    String "{"
      (member_line "success" ((if success then "true" else "false") +:+ String ","
      (member_line "output" (quoted out (String ","
      (member_line "error" (quoted err (String ","
      (member_line "code" (pretty code +:+ String "010" (String "}" ""))))))))))).
Proof.
  unfold result_text, member_line, quoted, quote, newline.
  destruct success; string_flat; reflexivity.
Qed.

(** Reading the text of a result object gives the object back. *)
Lemma parse_result_text success out err code :
  JSON_parse (result_text success out err code) =
    Some (result_object success out err code).
Proof.
  unfold JSON_parse. rewrite result_text_layout.
  set (body := member_line "success" _).
  assert (∀ fuel, read_value (S (S (S (S (S (S fuel)))))) (String "{" body) =
                  Some (result_object success out err code, "")) as Hread.
  { intros fuel.
    transitivity
      (match read_members (S (S (S (S (S fuel))))) [] body with
       | Some (fields, after) => Some (Obj fields, after)
       | None => None
       end); [reflexivity|].
    subst body.
    erewrite read_members_then by apply read_value_bool.
    erewrite read_members_then by apply read_value_string.
    erewrite read_members_then by apply read_value_string.
    erewrite read_members_last by apply read_value_number.
    reflexivity. }
  assert (∃ n, String.length (String "{" body) = S (S (S (S (S n))))%nat) as [n ->].
  { subst body. unfold member_line. cbn [String.length]. eauto. }
  by rewrite Hread.
Qed.

End Reading.

(* ===================================================================== *)
(** ** Basic facts about the process runner of terraform.js *)
(* ===================================================================== *)

Section RunCommand.
Import TerraformJs.

Lemma runCommand_not_connected args w :
  binaryPath_truthy (tfjs_binaryPath w) = false →
  runCommand args w = (Throw "Not connected to Terraform/OpenTofu", w).
Proof.
  intros H. unfold runCommand, bind, gets. simpl.
  destruct (tfjs_binaryPath w) as [b|]; [|reflexivity].
  rewrite H. reflexivity.
Qed.

Lemma runCommand_connected args w b :
  tfjs_binaryPath w = Some b → b ≠ "" →
  runCommand args w =
    (match os w (invocations w) (mkInvocation b args) with
     | SpawnError m => Throw m
     | Exited code out err => Ok (command_result code out err)
     end,
     set_invocations (invocations w ++ [mkInvocation b args]) w).
Proof.
  intros Hb Hne. unfold runCommand, bind, gets. simpl. rewrite Hb. simpl.
  rewrite bool_decide_eq_false_2 by done. simpl.
  unfold Deno_Command_output.
  destruct (os w (invocations w) (mkInvocation b args)); reflexivity.
Qed.

(** [runCommand] invokes at most one process, and exactly when a binary is
    resolved. *)
Lemma runCommand_invocations args w :
  invocations (runCommand args w).2 =
    match tfjs_binaryPath w with
    | Some b => if binaryPath_truthy (Some b)
                then invocations w ++ [mkInvocation b args]
                else invocations w
    | None => invocations w
    end.
Proof.
  destruct (tfjs_binaryPath w) as [b|] eqn:Hb.
  - destruct (binaryPath_truthy (Some b)) eqn:Ht.
    + rewrite (runCommand_connected args w b Hb); [reflexivity|].
      simpl in Ht. intros ->. discriminate.
    + rewrite runCommand_not_connected; [reflexivity|]. by rewrite Hb.
  - rewrite runCommand_not_connected; [reflexivity|]. by rewrite Hb.
Qed.

End RunCommand.

(** Every handler of terraform.js builds one argument vector from the call
    arguments and hands it to [runCommand]; nothing else touches the
    world. *)
Lemma tfjs_handler_runs_command tool a :
  tool ∈ TerraformJs.tools →
  ∃ argv, ∀ w, tool_handler tool a w = TerraformJs.runCommand argv w.
Proof.
  intros Hin. unfold TerraformJs.tools in Hin.
  repeat (apply elem_of_cons in Hin as [-> | Hin]);
    try (by apply elem_of_nil in Hin);
    try (eexists; intros w; reflexivity).
  (* terraform_plan: the branch on [vars] *)
  simpl. unfold TerraformJs.terraform_plan_handler.
  destruct (JS.truthy (prop a "vars")) eqn:Hv.
  - destruct (prop a "vars") eqn:Hvars; simpl in Hv; try discriminate;
      simpl; eexists; intros w; reflexivity.
  - eexists; intros w; reflexivity.
Qed.

(** While no binary is resolved, every handler of terraform.js fails with
    the not-connected error before any process is invoked. *)
Lemma tfjs_handler_not_connected tool a w :
  tool ∈ TerraformJs.tools →
  TerraformJs.binaryPath_truthy (tfjs_binaryPath w) = false →
  tool_handler tool a w = (Throw "Not connected to Terraform/OpenTofu", w).
Proof.
  intros Hin Hb. destruct (tfjs_handler_runs_command tool a Hin) as [argv ->].
  by apply runCommand_not_connected.
Qed.

(** The call boundary never throws: a handler's exception is turned into an
    error envelope. *)
Lemma call_handler_returns handler args w :
  ∃ env, (call_handler handler args w).1 = Ok env.
Proof.
  unfold call_handler, try_catch, bind, ret.
  destruct (handler args w) as [[v | m] w']; simpl; eauto.
Qed.

Lemma call_handler_world handler args w :
  (call_handler handler args w).2 = (handler args w).2.
Proof.
  unfold call_handler, try_catch, bind, ret.
  by destruct (handler args w) as [[v | m] w'].
Qed.

(* ===================================================================== *)
(** ** Dispatch in index.js *)
(* ===================================================================== *)

Section Dispatch.
Import IndexJs.

Lemma find_tool_none adapter name :
  name ∉ tool_name <$> default [] (adapter_tools adapter) →
  find_tool adapter name = None.
Proof.
  unfold find_tool. destruct (adapter_tools adapter) as [tools|]; [|done].
  simpl. induction tools as [|t tools IH]; [done|].
  intros Hnot. simpl. rewrite fmap_cons in Hnot.
  apply not_elem_of_cons in Hnot as [Hne Hnot].
  rewrite bool_decide_eq_false_2 by congruence. by apply IH.
Qed.

Lemma find_tool_some adapter name tool :
  find_tool adapter name = Some tool →
  tool_name tool = name ∧ tool ∈ default [] (adapter_tools adapter).
Proof.
  unfold find_tool. destruct (adapter_tools adapter) as [tools|]; [|done].
  simpl. induction tools as [|t tools IH]; [done|].
  simpl. case_bool_decide as Hn.
  - intros [= ->]. split; [done | apply elem_of_cons; by left].
  - intros H. destruct (IH H) as [? ?]. split; [done | apply elem_of_cons; by right].
Qed.

(** The call handler always answers with an envelope. *)
Lemma CallTool_handler_returns adapters name args w :
  ∃ env, (CallTool_handler adapters name args w).1 = Ok env.
Proof.
  unfold CallTool_handler.
  induction adapters as [|adapter rest IH]; simpl.
  - eauto.
  - destruct (find_tool adapter name); [apply call_handler_returns | apply IH].
Qed.

(** C3. A call that names a tool no adapter lists is answered with an
    envelope marked as an error whose text is [Unknown tool: ] followed by
    the requested name; the answer is a normal return of the handler (the
    server does not fail) and the world is left as it was, so the process
    runner has not been invoked. *)
Theorem unknown_tool_error_envelope adapters name args w :
  name ∉ tool_name <$> allTools adapters →
  CallTool_handler adapters name args w =
    (Ok (mkEnvelope [mkContent "text" (Some ("Unknown tool: " +:+ name))] (Some true)),
     w).
Proof.
  unfold CallTool_handler, allTools.
  induction adapters as [|adapter rest IH]; simpl; [done|].
  intros Hnot. rewrite fmap_app in Hnot.
  apply not_elem_of_app in Hnot as [Hhere Hrest].
  rewrite find_tool_none by done. by apply IH.
Qed.

Lemma unknown_tool_error_envelope_witness :
  CallTool_handler [TerraformJs.adapter] "terraform_teleport" ∅
                   (initial_world (os_always (Exited 0 "" ""))) =
    (Ok (mkEnvelope [mkContent "text" (Some "Unknown tool: terraform_teleport")]
                    (Some true)),
     initial_world (os_always (Exited 0 "" ""))).
Proof.
  apply (unknown_tool_error_envelope [TerraformJs.adapter] "terraform_teleport").
  apply (bool_decide_unpack _). vm_compute. exact I.
Defined.

End Dispatch.

(* ===================================================================== *)
(** ** Argument vectors built by terraform.js *)
(* ===================================================================== *)

Section ArgumentVectors.
Import TerraformJs.

Lemma runCommand_log args w b :
  resolved w b →
  invocations (runCommand args w).2 = invocations w ++ [mkInvocation b args].
Proof. intros [Hb Hne]. by rewrite (runCommand_connected args w b). Qed.






Lemma tofu_world_resolved : resolved tofu_world "tofu".
Proof. split; [reflexivity | discriminate]. Qed.


(** C10. The tool registered as [terraform_state_list] declares [path]
    required, yet whatever the argument mapping holds the handler does the
    same thing as on any other mapping, and with a resolved binary the
    argument vector it builds is exactly [state], [list]. *)
Theorem state_list_vector_ignores_arguments a w b :
  resolved w b →
  (∃ tool, IndexJs.find_tool adapter "terraform_state_list" = Some tool ∧
           tool_handler tool = terraform_state_list_handler ∧
           "path" ∈ schema_required (tool_inputSchema tool)) ∧
  built_by terraform_state_list_handler a w b [JS.Str "state"; JS.Str "list"] ∧
  (∀ a', terraform_state_list_handler a' w = terraform_state_list_handler a w).
Proof.
  intros Hres. split; [|split].
  - eexists. split; [reflexivity|]. split; [reflexivity|].
    simpl. apply elem_of_cons. by left.
  - by apply runCommand_log.
  - reflexivity.
Qed.

Lemma state_list_vector_ignores_arguments_witness :
  built_by terraform_state_list_handler
           {[ "path" := JS.Str "/srv/prod" ]} tofu_world "tofu"
           [JS.Str "state"; JS.Str "list"].
Proof.
  apply (state_list_vector_ignores_arguments
           {[ "path" := JS.Str "/srv/prod" ]} tofu_world "tofu").
  split; [reflexivity | discriminate].
Defined.

End ArgumentVectors.

(* ===================================================================== *)
(** ** Calls through index.js into terraform.js *)
(* ===================================================================== *)

Section TerraformCalls.
Import IndexJs TerraformJs.

Lemma app_singleton_neq {A} (l : list A) (x : A) : l ≠ l ++ [x].
Proof.
  intros H. apply (f_equal length) in H. rewrite length_app in H.
  simpl in H. lia.
Qed.

(** A call on the terraform adapter either names one of its tools, whose
    handler then runs one command, or is answered as unknown. *)
Lemma terraform_call_cases name a :
  (∃ argv, ∀ w, CallTool_handler [adapter] name a w =
                call_handler (λ _, runCommand argv) a w) ∨
  (∀ w, CallTool_handler [adapter] name a w =
        (Ok (mkEnvelope [mkContent "text" (Some ("Unknown tool: " +:+ name))]
                        (Some true)), w)).
Proof.
  unfold CallTool_handler. simpl.
  destruct (find_tool adapter name) as [tool|] eqn:Hfind.
  - left. apply find_tool_some in Hfind as [_ Hin]. simpl in Hin.
    destruct (tfjs_handler_runs_command tool a Hin) as [argv Hargv].
    exists argv. intros w. unfold call_handler, try_catch, bind.
    by rewrite Hargv.
  - right. intros w. reflexivity.
Qed.

(** C2. When a call on the terraform adapter ran a process and that process
    exited with a non-zero code, the call returns an envelope that carries
    no [isError] mark and whose single text item, read as JSON, is the
    result object with [success] false, [output] the captured standard
    output, [error] the captured standard error and [code] the exit
    code. *)
Theorem process_failure_is_data name a w r w' inv code out err :
  CallTool_handler [adapter] name a w = (r, w') →
  invocations w' = invocations w ++ [inv] →
  os w (invocations w) inv = Exited code out err →
  code ≠ 0 →
  ∃ text,
    r = Ok (mkEnvelope [mkContent "text" (Some text)] None) ∧
    JS.JSON_parse text = Some (result_object false out err code).
Proof.
  intros Hcall Hlog Hos Hcode.
  exists (result_text false out err code). split; [|apply parse_result_text].
  rewrite <- stringify_result.
  destruct (terraform_call_cases name a) as [[argv Hrun] | Hunknown].
  - rewrite Hrun in Hcall. unfold call_handler, try_catch, bind, ret in Hcall.
    destruct (tfjs_binaryPath w) as [b|] eqn:Hb.
    + destruct (decide (b = "")) as [-> | Hne].
      * rewrite runCommand_not_connected in Hcall by (by rewrite Hb).
        simpl in Hcall. injection Hcall as _ <-.
        by apply app_singleton_neq in Hlog.
      * rewrite (runCommand_connected argv w b Hb Hne) in Hcall.
        assert (w' = set_invocations (invocations w ++ [mkInvocation b argv]) w)
          as -> by (destruct (os w (invocations w) (mkInvocation b argv));
                    simpl in Hcall; congruence).
        simpl in Hlog. apply app_inj_tail in Hlog as [_ <-].
        rewrite Hos in Hcall. simpl in Hcall.
        injection Hcall as <-. unfold command_result.
        by rewrite bool_decide_eq_false_2.
    + rewrite runCommand_not_connected in Hcall by (by rewrite Hb).
      simpl in Hcall. injection Hcall as _ <-.
      by apply app_singleton_neq in Hlog.
  - rewrite Hunknown in Hcall. injection Hcall as _ <-.
    by apply app_singleton_neq in Hlog.
Qed.

Lemma process_failure_is_data_witness :
  ∃ text,
    (CallTool_handler [adapter] "terraform_validate" plain_args failing_world).1 =
      Ok (mkEnvelope [mkContent "text" (Some text)] None) ∧
    JS.JSON_parse text = Some (result_object false "" "no such stack" 1).
Proof.
  apply (process_failure_is_data "terraform_validate" plain_args failing_world
           _ (CallTool_handler [adapter] "terraform_validate" plain_args failing_world).2
           (mkInvocation "tofu" [JS.Str "validate"; JS.Str "infra"]) 1 "" "no such stack").
  - reflexivity.
  - reflexivity.
  - reflexivity.
  - discriminate.
Defined.

(** The third end-to-end scenario, computed: the text of the envelope and
    what a client reads from it. *)
Example scenario_failure_is_data :
  let r := (CallTool_handler [adapter] "terraform_validate" plain_args failing_world).1 in
  r = Ok (mkEnvelope
            [mkContent "text" (Some (result_text false "" "no such stack" 1))] None) ∧
  (JS.JSON_parse (result_text false "" "no such stack" 1)
     ≫= λ v, match v with
             | JS.Obj fields => Some (JS.get fields "success", JS.get fields "error")
             | _ => None
             end) = Some (JS.Bool false, JS.Str "no such stack").
Proof. split; vm_compute; reflexivity. Qed.

(** C1, evaluated. [terraform_init] declares [path] required.  Called with
    an empty argument mapping on a connected adapter, the handler is run
    all the same: a process is invoked with the argument vector [init],
    [undefined], and the envelope is an ordinary result, not an error. *)
Theorem missing_required_path_spawns_process :
  (∃ tool, find_tool adapter "terraform_init" = Some tool ∧
           "path" ∈ schema_required (tool_inputSchema tool)) ∧
  (∅ : Args) !! "path" = None ∧
  CallTool_handler [adapter] "terraform_init" ∅ tofu_world =
    (Ok (mkEnvelope
           [mkContent "text" (JS.JSON_stringify (command_result 0 "ok" ""))] None),
     set_invocations [mkInvocation "tofu" [JS.Str "init"; JS.Undefined]] tofu_world).
Proof.
  split; [|split].
  - eexists. split; [reflexivity|]. simpl. apply elem_of_cons. by left.
  - reflexivity.
  - reflexivity.
Qed.

(** On an adapter without a resolved binary the same call is answered with
    an error envelope, but the error is the connection error of
    [runCommand], not a complaint about the missing parameter. *)
Lemma missing_required_path_not_connected os :
  CallTool_handler [adapter] "terraform_init" ∅ (initial_world os) =
    (Ok (mkEnvelope
           [mkContent "text" (Some "Error: Not connected to Terraform/OpenTofu")]
           (Some true)),
     initial_world os).
Proof. reflexivity. Qed.

End TerraformCalls.

(* ===================================================================== *)
(** ** Handlers of Pulumi.res *)
(* ===================================================================== *)

Section PulumiHandlers.
Import Pulumi.

(** The Pulumi handlers that need a value refuse to run without it: the
    handler raises before any process is invoked, and the callback that
    [main.js] registers turns the exception into an error envelope. *)
Lemma pulumi_required_parameter_raises a w :
  a !! "stack" = None →
  stackSelectHandler a w = (Throw "stack parameter is required", w) ∧
  stackInitHandler a w = (Throw "stack parameter is required", w) ∧
  MainJs.tool_callback
    (mkToolDef "Select a stack"
       (list_to_map [("stack", stringParam "Stack name to select");
                     ("path", stringParam "Path to Pulumi project")])
       stackSelectHandler) a w =
    (Ok (mkEnvelope [mkContent "text" (Some "Error: stack parameter is required")]
                    (Some true)), w).
Proof.
  intros Hstack.
  unfold MainJs.tool_callback, call_handler, try_catch, bind. simpl.
  unfold stackSelectHandler, stackInitHandler, get_string.
  rewrite Hstack. simpl. done.
Qed.

Lemma pulumi_required_key_raises a w :
  a !! "key" = None →
  configSetHandler a w = (Throw "key parameter is required", w) ∧
  configGetHandler a w = (Throw "key parameter is required", w).
Proof.
  intros Hkey. unfold configSetHandler, configGetHandler, get_string.
  rewrite Hkey. simpl. done.
Qed.

(** The guard that [runPulumiCmd] lacks, as Terraform.res has it: without a
    resolved binary [runCommand] answers with a failure object and invokes
    nothing. *)
Lemma tfres_runCommand_not_connected args w :
  tfres_binaryPath w = None →
  TerraformRes.runCommand args w =
    (Ok (JS.Obj [("success", JS.Bool false);
                 ("error", JS.Str "Not connected to Terraform/OpenTofu")]), w).
Proof.
  intros H. unfold TerraformRes.runCommand, bind, gets. simpl. by rewrite H.
Qed.

(** A Pulumi process that exits with a non-zero code is reported as data,
    with [success] false and the captured standard error. *)
Lemma pulumi_failure_is_data a w code out err :
  os w (invocations w)
     (mkInvocation "pulumi"
        (JS.Str <$> ["refresh"; "--cwd"; default "." (get_string a "path"); "--json"]))
    = Exited code out err →
  code ≠ 0 →
  get_string a "stack" = None → get_bool a "yes" = None →
  (refreshHandler a w).1 =
    Ok (JS.Obj [("success", JS.Bool false); ("output", JS.Str out);
                ("error", JS.Str err)]).
Proof.
  intros Hos Hcode Hstack Hyes.
  unfold refreshHandler, runPulumiCmd, Deno_Command_run, bind, Deno_Command_output.
  rewrite Hstack, Hyes. simpl. unfold fmap, list_fmap in Hos. simpl in Hos.
  rewrite Hos. simpl. unfold success_output_error, bool_of_code. simpl.
  by rewrite bool_decide_eq_false_2.
Qed.

(** C5, evaluated. The Pulumi adapter has never been connected
    ([connected] is false), yet its version handler invokes the [pulumi]
    binary and returns a result: [runPulumiCmd] does not look at the
    connection state. *)
Theorem pulumi_handler_runs_while_disconnected :
  let w := initial_world (os_always (Exited 0 "v3.100.0" "")) in
  (isConnected w).1 = Ok false ∧
  versionHandler ∅ w =
    (Ok (JS.Obj [("success", JS.Bool true);
                 ("version", JS.Str "v3.100.0");
                 ("error", JS.Str "")]),
     set_invocations [mkInvocation "pulumi" [JS.Str "version"]] w).
Proof. split; reflexivity. Qed.

(** The same after an explicit [disconnect]: in any world, every command
    the Pulumi adapter runs goes to the process runner. *)
Lemma runPulumiCmd_ignores_connection args w :
  invocations (runPulumiCmd args (disconnect w).2).2 =
    invocations w ++ [mkInvocation "pulumi" (map JS.Str args)].
Proof.
  unfold runPulumiCmd, Deno_Command_run, bind, Deno_Command_output. simpl.
  by destruct (os w (invocations w) _).
Qed.

End PulumiHandlers.

(* ===================================================================== *)
(** ** The merged tool table of main.js *)
(* ===================================================================== *)

Section ToolTable.
Import MainJs.

(** Writing the entries of a dictionary one by one into a table gives the
    union in which the written entries take precedence. *)
Lemma foldl_insert_entries {A B} (g : A → B) (l : list (string * A))
    (acc : gmap string B) :
  NoDup l.*1 →
  foldl (λ m entry, <[entry.1 := g entry.2]> m) acc l =
    (g <$> (list_to_map l : gmap string A)) ∪ acc.
Proof.
  revert acc. induction l as [|[k v] l IH]; intros acc Hnd.
  - simpl. by rewrite fmap_empty, (left_id_L ∅ (∪)).
  - rewrite fmap_cons in Hnd. apply NoDup_cons in Hnd as [Hk Hnd].
    simpl in Hk. simpl. rewrite IH by done.
    rewrite fmap_insert, <- insert_union_l. symmetry. apply insert_union_r.
    rewrite lookup_fmap. apply not_elem_of_list_to_map_1 in Hk.
    by rewrite Hk.
Qed.

Lemma merge_tools_union tools allTools :
  merge_tools tools allTools = tools ∪ allTools.
Proof.
  unfold merge_tools.
  etrans; [apply (foldl_insert_entries id), NoDup_fst_map_to_list|].
  by rewrite map_fmap_id, list_to_map_to_list.
Qed.

Lemma register_tools_fmap allTools :
  register_tools allTools =
    (λ tool, mkRegistered (def_description tool)
                          (build_inputSchema (def_params tool))
                          (tool_callback tool)) <$> allTools.
Proof.
  unfold register_tools.
  etrans; [apply (foldl_insert_entries
                    (λ tool, mkRegistered (def_description tool)
                                          (build_inputSchema (def_params tool))
                                          (tool_callback tool))),
           NoDup_fst_map_to_list|].
  by rewrite list_to_map_to_list, (right_id_L ∅ (∪)).
Qed.

Lemma merged_into_app table l1 l2 :
  merged_into table (l1 ++ l2) = merged_into (merged_into table l1) l2.
Proof. apply foldl_app. Qed.

(** Later adapters override: a name that no adapter of [connected] lists
    keeps the definition it had. *)
Lemma merged_into_lookup_none table connected name :
  (∀ adapter, adapter ∈ connected → res_tools adapter !! name = None) →
  merged_into table connected !! name = table !! name.
Proof.
  revert table. induction connected as [|a l IH]; intros table Hnone; [done|].
  simpl. rewrite IH by (intros x Hx; apply Hnone; by apply elem_of_cons; right).
  rewrite merge_tools_union. rewrite lookup_union_r; [done|].
  apply Hnone. apply elem_of_cons. by left.
Qed.

(** The definition found under a name is the one of the last adapter in
    [connected] that lists the name. *)
Lemma merged_into_lookup_last table earlier adapter later name def :
  res_tools adapter !! name = Some def →
  (∀ a, a ∈ later → res_tools a !! name = None) →
  merged_into table (earlier ++ adapter :: later) !! name = Some def.
Proof.
  intros Hdef Hlater. rewrite merged_into_app. simpl.
  rewrite merged_into_lookup_none by done.
  rewrite merge_tools_union. by apply lookup_union_Some_l.
Qed.

(** Every entry of the table comes from the starting table or from one of
    the merged adapters. *)
Lemma merged_into_lookup_some table connected name def :
  merged_into table connected !! name = Some def →
  table !! name = Some def ∨
  ∃ adapter, adapter ∈ connected ∧ res_tools adapter !! name = Some def.
Proof.
  revert table. induction connected as [|a l IH]; intros table; [by left|].
  simpl. intros H. apply IH in H as [H | (x & Hx & Hdef)].
  - rewrite merge_tools_union in H. apply lookup_union_Some_raw in H as [H | [_ H]].
    + right. exists a. split; [apply elem_of_cons; by left | done].
    + by left.
  - right. exists x. split; [apply elem_of_cons; by right | done].
Qed.

(** Every name an adapter of [connected] lists is in the table. *)
Lemma merged_into_covers table connected adapter name :
  adapter ∈ connected → is_Some (res_tools adapter !! name) →
  is_Some (merged_into table connected !! name).
Proof.
  intros Hin [def Hdef].
  apply list_elem_of_split in Hin as (l1 & l2 & ->).
  assert (∀ l t, is_Some (t !! name) → is_Some (merged_into t l !! name)) as Hkeep.
  { induction l as [|x l IH]; intros t Ht; [done|]. simpl. apply IH.
    rewrite merge_tools_union. destruct Ht as [d Hd].
    destruct (res_tools x !! name) as [d'|] eqn:Hx.
    - exists d'. by apply lookup_union_Some_l.
    - exists d. by rewrite lookup_union_r. }
  rewrite merged_into_app. simpl. apply Hkeep.
  rewrite merge_tools_union. exists def. by apply lookup_union_Some_l.
Qed.

End ToolTable.

(* ===================================================================== *)
(** ** Start-up in main.js *)
(* ===================================================================== *)

Section Startup.
Import MainJs.

(** The loop never throws; it ends with the adapters that connected and
    with their tools merged into the table. *)
Lemma connect_loop_spec adapters already table w :
  ∃ connected w',
    connect_loop adapters already table w =
      (Ok (already ++ connected, merged_into table connected), w') ∧
    connects w adapters connected w'.
Proof.
  revert already table w.
  induction adapters as [|adapter rest IH]; intros already table w.
  - exists [], w. split; [|constructor].
    simpl. unfold ret. by rewrite app_nil_r.
  - simpl. unfold bind, try_catch.
    destruct (res_connect adapter w) as [[[] | message] w1] eqn:Hc.
    + simpl.
      destruct (IH (already ++ [adapter]) (merge_tools (res_tools adapter) table) w1)
        as (connected & w' & Hloop & Hrel).
      exists (adapter :: connected), w'. split.
      * rewrite Hloop. by rewrite <- app_assoc.
      * by eapply connects_ok.
    + simpl. unfold bind, console_error, modify, ret. simpl.
      destruct (IH already table
                  (set_stderr_lines
                     (stderr_lines w1 ++ [connect_failure_line adapter message]) w1))
        as (connected & w' & Hloop & Hrel).
      exists connected, w'. split; [exact Hloop|].
      by eapply connects_failed.
Qed.

(** C4. For any adapters and any world, the connection loop of [main]
    completes; the adapters it reports as connected are those whose
    [connect] returned, an adapter whose [connect] threw is left out while
    the following ones are still tried; and the merged table holds exactly
    the tools of the connected adapters: every entry is a tool of a
    connected adapter, and every tool name of a connected adapter has an
    entry. *)
Theorem failed_adapter_excluded adapters w :
  ∃ connected table w',
    connect_loop adapters [] ∅ w = (Ok (connected, table), w') ∧
    connects w adapters connected w' ∧
    (∀ name def, table !! name = Some def →
       ∃ adapter, adapter ∈ connected ∧ res_tools adapter !! name = Some def) ∧
    (∀ adapter name, adapter ∈ connected → is_Some (res_tools adapter !! name) →
       is_Some (table !! name)).
Proof.
  destruct (connect_loop_spec adapters [] ∅ w) as (connected & w' & Hloop & Hrel).
  exists connected, (merged_into ∅ connected), w'.
  split; [exact Hloop|]. split; [exact Hrel|]. split.
  - intros name def H. apply merged_into_lookup_some in H as [H | H]; [|done].
    by rewrite lookup_empty in H.
  - intros adapter name. apply merged_into_covers.
Qed.

(** The outcome of the connection phase is determined by the starting
    world. *)
Lemma connects_deterministic w adapters c1 w1 c2 w2 :
  connects w adapters c1 w1 → connects w adapters c2 w2 → c1 = c2 ∧ w1 = w2.
Proof.
  intros H1. revert c2 w2.
  induction H1 as [w | w wa wb a rest conn Hc Hrest IH
                     | w wa wb m a rest conn Hc Hrest IH];
    intros c2 w2 H2; inversion H2; subst;
    repeat match goal with
           | Ha : res_connect ?a ?w = _, Hb : res_connect ?a ?w = _ |- _ =>
               rewrite Ha in Hb; simplify_eq
           end.
  - done.
  - match goal with H : connects _ rest _ _ |- _ => apply IH in H as [-> ->] end.
    done.
  - match goal with H : connects _ rest _ _ |- _ => apply IH in H as [-> ->] end.
    done.
Qed.

(** The adapters that [connects] reports are a sublist of the configured
    ones. *)
Lemma connects_sublist w adapters connected w' :
  connects w adapters connected w' → connected `sublist_of` adapters.
Proof.
  induction 1.
  - constructor.
  - by apply sublist_skip.
  - by apply sublist_cons.
Qed.

Example scenario_one_adapter_fails :
  match connect_loop scenario_adapters [] ∅ scenario_world with
  | (Ok (connected, table), w') =>
      res_name <$> connected = ["terraform"] ∧
      size table = 9%nat ∧
      is_Some (table !! "terraform_plan") ∧
      table !! "pulumi_up" = None ∧
      stderr_lines w' = ["Failed to connect pulumi: No such file or directory"]
  | (Throw _, _) => False
  end.
Proof. vm_compute. repeat split; eauto. Qed.

(** C7, as amended. In [main.js], when an adapter that connected lists a
    name and no adapter connected after it lists that name, the merged
    table maps the name to that adapter's definition, whatever the earlier
    adapters listed, and the callback registered under the name is the one
    that calls that definition's handler.  In [index.js] the call handler
    scans the adapters in order: the tool of the first adapter that lists
    the name is the one whose handler runs. *)
Theorem collision_resolution earlier adapter later name def
    (before after : list Adapter) (first : Adapter) (tool : Tool) (args : Args) :
  res_tools adapter !! name = Some def →
  (∀ a, a ∈ later → res_tools a !! name = None) →
  (∀ a, a ∈ before → IndexJs.find_tool a name = None) →
  IndexJs.find_tool first name = Some tool →
  let table := merged_into ∅ (earlier ++ adapter :: later) in
  table !! name = Some def ∧
  reg_callback <$> register_tools table !! name = Some (call_handler (def_handler def)) ∧
  IndexJs.CallTool_handler (before ++ first :: after) name args =
    call_handler (tool_handler tool) args.
Proof.
  intros Hdef Hlater Hbefore Hfirst table.
  assert (table !! name = Some def) as Htable
    by by apply merged_into_lookup_last.
  split; [exact Htable|]. split.
  - rewrite register_tools_fmap, lookup_fmap, Htable. reflexivity.
  - unfold IndexJs.CallTool_handler.
    induction before as [|a before IH]; simpl.
    + by rewrite Hfirst.
    + rewrite Hbefore by (apply elem_of_cons; by left).
      apply IH. intros x Hx. apply Hbefore. apply elem_of_cons. by right.
Qed.

End Startup.

(* ===================================================================== *)
(** ** Two adapters that list the same tool name *)
(* ===================================================================== *)

Section Collision.
Import MainJs.

(** C7, counterexample. With the adapters registered in the order
    [earlier], [later], the call handler of [index.js] answers a call of
    [deploy] with the result of the earlier adapter's handler, not the
    later one's. *)
Lemma index_dispatch_first_wins :
  let w := initial_world (os_always (Exited 0 "" "")) in
  IndexJs.CallTool_handler [adapter_of "earlier"; adapter_of "later"] "deploy" ∅ w =
    call_handler (tool_handler (deploy_of "earlier")) ∅ w ∧
  IndexJs.CallTool_handler [adapter_of "earlier"; adapter_of "later"] "deploy" ∅ w ≠
    call_handler (tool_handler (deploy_of "later")) ∅ w.
Proof. split; [reflexivity | discriminate]. Qed.

Lemma collision_resolution_witness :
  let table := merged_into ∅ ([res_adapter_of "earlier"] ++ res_adapter_of "later" :: []) in
  table !! "deploy" = Some (deploy_def "later") ∧
  reg_callback <$> MainJs.register_tools table !! "deploy" =
    Some (call_handler (def_handler (deploy_def "later"))) ∧
  IndexJs.CallTool_handler ([] ++ adapter_of "earlier" :: [adapter_of "later"])
                           "deploy" ∅ =
    call_handler (tool_handler (deploy_of "earlier")) ∅.
Proof.
  apply (collision_resolution [res_adapter_of "earlier"] (res_adapter_of "later") [] "deploy"
           (deploy_def "later") [] [adapter_of "later"] (adapter_of "earlier")
           (deploy_of "earlier") ∅).
  - reflexivity.
  - intros a Ha. by apply elem_of_nil in Ha.
  - intros a Ha. by apply elem_of_nil in Ha.
  - reflexivity.
Defined.

End Collision.

(* ===================================================================== *)
(** ** Start-up with no adapter, and faults during a call *)
(* ===================================================================== *)

Section Launch.
Import MainJs.

Lemma register_tools_empty : register_tools ∅ = ∅.
Proof. by rewrite register_tools_fmap, fmap_empty. Qed.

(** Every callback that [main] registers answers with an envelope. *)
Lemma registered_callback_returns table name reg args w :
  register_tools table !! name = Some reg →
  ∃ env, (reg_callback reg args w).1 = Ok env.
Proof.
  rewrite register_tools_fmap, lookup_fmap.
  destruct (table !! name) as [def|]; [|done].
  simpl. intros [= <-]. simpl. apply call_handler_returns.
Qed.

Lemma main_server_tools adapters server_connect w started w' :
  main adapters server_connect w = (Ok started, w') →
  server_tools started = register_tools (allTools started).
Proof.
  unfold main, bind.
  destruct (connect_loop adapters [] ∅ w) as [[[connected table] | m] w1];
    [|discriminate].
  simpl. destruct (server_connect w1) as [[[] | m] w2]; [|discriminate].
  simpl. by intros [= <- <-].
Qed.

(** C8, as amended. Whatever the adapters and the transport do, [main]
    never ends the process with a non-zero exit status.  When no adapter
    connects and the transport can be connected, the server is started all
    the same, with no tool registered, and reports
    [0 adapter(s) connected] on the error stream after the per-adapter
    diagnostics.  Once the server is serving, a call never takes it down:
    every registered callback answers with an envelope, and so does the
    call handler of [index.js]. *)
Theorem startup_without_adapters_still_serves adapters server_connect w :
  (∀ code, (launch adapters server_connect w).1 = Finished code → code = 0) ∧
  (∀ w1 w2, connects w adapters [] w1 → server_connect w1 = (Ok tt, w2) →
     launch adapters server_connect w =
       (Serving (mkStarted [] ∅ ∅),
        set_stderr_lines (stderr_lines w2 ++ banner_lines) w2)) ∧
  (∀ started name reg args w1,
     (launch adapters server_connect w).1 = Serving started →
     server_tools started !! name = Some reg →
     ∃ env, (reg_callback reg args w1).1 = Ok env) ∧
  (∀ js_adapters name args w1,
     ∃ env, (IndexJs.CallTool_handler js_adapters name args w1).1 = Ok env).
Proof.
  split; [|split; [|split]].
  - intros code. unfold launch.
    destruct (main adapters server_connect w) as [[started | m] w']; simpl;
      [discriminate | by intros [= <-]].
  - intros w1 w2 Hrel Hsc. unfold launch, main, bind.
    destruct (connect_loop_spec adapters [] ∅ w) as (connected & w' & Hloop & Hrel').
    destruct (connects_deterministic _ _ _ _ _ _ Hrel Hrel') as [<- <-].
    rewrite Hloop. simpl. rewrite Hsc. simpl.
    rewrite register_tools_empty. unfold console_error, modify, ret. simpl.
    rewrite map_size_empty. f_equal. unfold set_stderr_lines. simpl.
    f_equal. by rewrite <- !app_assoc.
  - intros started name reg args w1. unfold launch.
    destruct (main adapters server_connect w) as [[st | m] w'] eqn:Hmain;
      simpl; [|discriminate].
    intros [= ->] Hreg. apply main_server_tools in Hmain.
    rewrite Hmain in Hreg. by eapply registered_callback_returns.
  - intros js_adapters name args w1. apply CallTool_handler_returns.
Qed.

(** C8, counterexample. With [adapters = [Terraform, Pulumi]] on a machine
    that has neither binary, no adapter connects; [main] logs the two
    failures and the start-up lines and the process is serving, with no
    tool: it has not exited, with a non-zero status or otherwise. *)
Lemma no_adapter_connects_yet_serving :
  let r := launch scenario_adapters (ret tt) bare_world in
  r.1 = Serving (mkStarted [] ∅ ∅) ∧
  (∀ code, r.1 ≠ Finished code) ∧
  stderr_lines r.2 =
    ["Failed to connect terraform: No Terraform/OpenTofu binary found";
     "Failed to connect pulumi: No such file or directory";
     "poly-iac-mcp v1.2.0 (STDIO mode)";
     "0 adapter(s) connected";
     "0 tools registered";
     "Feedback: https://github.com/hyperpolymath/poly-iac-mcp/issues"].
Proof.
  assert (launch scenario_adapters (ret tt) bare_world =
            (Serving (mkStarted [] ∅ ∅),
             set_stderr_lines
               ["Failed to connect terraform: No Terraform/OpenTofu binary found";
                "Failed to connect pulumi: No such file or directory";
                "poly-iac-mcp v1.2.0 (STDIO mode)";
                "0 adapter(s) connected";
                "0 tools registered";
                "Feedback: https://github.com/hyperpolymath/poly-iac-mcp/issues"]
               (set_invocations
                  [mkInvocation "tofu" [JS.Str "version"];
                   mkInvocation "terraform" [JS.Str "version"];
                   mkInvocation "pulumi" [JS.Str "version"]]
                  bare_world))) as H
    by (vm_compute; reflexivity).
  cbv zeta. rewrite H. simpl. split; [reflexivity|]. split; [discriminate | reflexivity].
Qed.

Lemma startup_without_adapters_still_serves_witness :
  ∃ w2,
    launch scenario_adapters (ret tt) bare_world =
      (Serving (mkStarted [] ∅ ∅),
       set_stderr_lines (stderr_lines w2 ++ banner_lines) w2).
Proof.
  eexists.
  eapply (proj1 (proj2 (startup_without_adapters_still_serves
                          scenario_adapters (ret tt) bare_world))).
  - eapply connects_failed; [reflexivity|].
    eapply connects_failed; [reflexivity|].
    apply connects_done.
  - reflexivity.
Defined.

End Launch.

(* ===================================================================== *)
(** ** The tool listing of index.js *)
(* ===================================================================== *)

Section Listing.
Import IndexJs.

(** C6, counterexample. After [disconnect()] the Terraform adapter is not
    connected and has no binary, and the listing still shows its eight
    tools. *)
Lemma listing_keeps_disconnected_tools :
  let w := (TerraformJs.disconnect tofu_world).2 in
  (TerraformJs.isConnected w).1 = Ok false ∧
  tfjs_binaryPath w = None ∧
  (ListTools_handler [TerraformJs.adapter] w).1 =
    Ok (info_of <$> TerraformJs.tools) ∧
  info_name <$> (info_of <$> TerraformJs.tools) =
    ["terraform_init"; "terraform_plan"; "terraform_apply"; "terraform_destroy";
     "terraform_output"; "terraform_state_list"; "terraform_validate";
     "terraform_fmt"].
Proof. repeat split. Qed.

(** C6, as amended. The listing is computed from the [tools] arrays of all
    configured adapters when the module is loaded and does not depend on
    the world: it is the same in any two worlds, it leaves the world as it
    is, it shows every tool of every adapter, and it is the same before and
    after any adapter's [connect] or [disconnect]. *)
Theorem listing_independent_of_connection adapters w w' :
  ListTools_handler adapters w = (Ok (info_of <$> allTools adapters), w) ∧
  (ListTools_handler adapters w).1 = (ListTools_handler adapters w').1 ∧
  (∀ adapter tools tool,
     adapter ∈ adapters → adapter_tools adapter = Some tools → tool ∈ tools →
     info_of tool ∈ info_of <$> allTools adapters) ∧
  (∀ adapter,
     (ListTools_handler adapters (adapter_disconnect adapter w).2).1 =
       (ListTools_handler adapters w).1 ∧
     (ListTools_handler adapters (adapter_connect adapter w).2).1 =
       (ListTools_handler adapters w).1).
Proof.
  split; [reflexivity|]. split; [reflexivity|]. split; [|by intros].
  intros adapter tools tool Hin Htools Htool.
  apply list_elem_of_fmap_2. unfold allTools.
  apply list_elem_of_In, in_flat_map. exists adapter.
  split; [by apply list_elem_of_In|]. rewrite Htools. simpl.
  by apply list_elem_of_In.
Qed.

Lemma listing_independent_of_connection_witness :
  match TerraformJs.tools with
  | tool :: _ => info_of tool ∈ info_of <$> allTools [TerraformJs.adapter]
  | [] => True
  end.
Proof.
  simpl.
  apply (listing_independent_of_connection [TerraformJs.adapter] tofu_world tofu_world)
    with (adapter := TerraformJs.adapter) (tools := TerraformJs.tools).
  - apply elem_of_cons. by left.
  - reflexivity.
  - apply elem_of_cons. by left.
Defined.

End Listing.

(* ===================================================================== *)
(** ** Binary detection and the connection life cycle of terraform.js *)
(* ===================================================================== *)

Section Detection.
Import TerraformJs.

(** What [detectBinary] does, case by case: [tofu] is probed first;
    [terraform] is probed only when that probe did not succeed; the answer
    is the first binary whose probe succeeded.  It always returns. *)
Lemma detectBinary_cases w :
  detectBinary w =
    if probe_ok (os w (invocations w) (probe "tofu")) then
      (Ok (Some "tofu"), set_invocations (invocations w ++ [probe "tofu"]) w)
    else
      (Ok (if probe_ok (os w (invocations w ++ [probe "tofu"]) (probe "terraform"))
           then Some "terraform" else None),
       set_invocations (invocations w ++ [probe "tofu"; probe "terraform"]) w).
Proof.
  unfold detectBinary, detectBinary_loop, bind, try_catch, ret, Deno_Command_output,
    probe. simpl.
  destruct (os w (invocations w) _) as [m1 | c1 o1 e1]; simpl.
  - destruct (os w (invocations w ++ _) _) as [m2 | c2 o2 e2]; simpl;
      rewrite <- ?app_assoc; simpl; [reflexivity|].
    by case_bool_decide.
  - case_bool_decide; simpl; [reflexivity|].
    destruct (os w (invocations w ++ _) _) as [m2 | c2 o2 e2]; simpl;
      rewrite <- ?app_assoc; simpl; [reflexivity|].
    by case_bool_decide.
Qed.

(** X1. When [tofu version] exits with code 0, [detectBinary] answers
    [tofu] after that single probe: [terraform] is not probed. *)
Theorem detectBinary_prefers_tofu w out err :
  os w (invocations w) (probe "tofu") = Exited 0 out err →
  detectBinary w =
    (Ok (Some "tofu"), set_invocations (invocations w ++ [probe "tofu"]) w).
Proof. intros H. rewrite detectBinary_cases, H. reflexivity. Qed.

Lemma detectBinary_prefers_tofu_witness :
  detectBinary tofu_world =
    (Ok (Some "tofu"),
     set_invocations (invocations tofu_world ++ [probe "tofu"]) tofu_world).
Proof.
  apply (detectBinary_prefers_tofu tofu_world "ok" ""). reflexivity.
Defined.

(** X2. When the probe of [tofu] fails, by a spawn error or a non-zero
    exit code, and [terraform version] then exits with code 0,
    [detectBinary] answers [terraform] after the two probes, in that
    order. *)
Theorem detectBinary_falls_back_to_terraform w out err :
  probe_ok (os w (invocations w) (probe "tofu")) = false →
  os w (invocations w ++ [probe "tofu"]) (probe "terraform") = Exited 0 out err →
  detectBinary w =
    (Ok (Some "terraform"),
     set_invocations (invocations w ++ [probe "tofu"; probe "terraform"]) w).
Proof. intros H1 H2. rewrite detectBinary_cases, H1, H2. reflexivity. Qed.

Lemma detectBinary_falls_back_to_terraform_witness :
  detectBinary terraform_only_world =
    (Ok (Some "terraform"),
     set_invocations
       (invocations terraform_only_world ++ [probe "tofu"; probe "terraform"])
       terraform_only_world).
Proof.
  apply (detectBinary_falls_back_to_terraform terraform_only_world "Terraform v1.9" "");
    reflexivity.
Defined.

(** X3. When neither probe succeeds, whether the binaries cannot be spawned
    or exit with an error, [detectBinary] does not throw: it answers
    [null] after having probed both. *)
Theorem detectBinary_none_without_throwing w :
  probe_ok (os w (invocations w) (probe "tofu")) = false →
  probe_ok (os w (invocations w ++ [probe "tofu"]) (probe "terraform")) = false →
  detectBinary w =
    (Ok None,
     set_invocations (invocations w ++ [probe "tofu"; probe "terraform"]) w).
Proof. intros H1 H2. rewrite detectBinary_cases, H1, H2. reflexivity. Qed.

Lemma detectBinary_none_without_throwing_witness :
  detectBinary bare_world =
    (Ok None,
     set_invocations (invocations bare_world ++ [probe "tofu"; probe "terraform"])
                     bare_world).
Proof. apply (detectBinary_none_without_throwing bare_world); reflexivity. Defined.

(** The binary [detectBinary] answers is one of the two candidates. *)
Lemma detectBinary_candidates w b :
  (detectBinary w).1 = Ok (Some b) → b = "tofu" ∨ b = "terraform".
Proof.
  rewrite detectBinary_cases.
  destruct (probe_ok _); simpl; [intros [= <-]; by left|].
  destruct (probe_ok _); simpl; [intros [= <-]; by right | discriminate].
Qed.

Lemma detectBinary_returns w : ∃ r, (detectBinary w).1 = Ok r.
Proof.
  rewrite detectBinary_cases. destruct (probe_ok _); simpl; eauto.
Qed.

(** [detectBinary] only adds to the invocation log. *)
Lemma detectBinary_state w :
  tfjs_binaryPath (detectBinary w).2 = tfjs_binaryPath w ∧
  tfjs_connected (detectBinary w).2 = tfjs_connected w ∧
  os (detectBinary w).2 = os w.
Proof. rewrite detectBinary_cases. by destruct (probe_ok _). Qed.

(** X4. When detection finds a binary, [connect] records it: it answers
    with [success] true and the binary, [isConnected] is true afterwards,
    and the next command goes to that binary (here [state list]). *)
Theorem connect_records_detected_binary w b a :
  (detectBinary w).1 = Ok (Some b) →
  let w' := (connect w).2 in
  (connect w).1 = Ok (JS.Obj [("success", JS.Bool true); ("binary", JS.Str b)]) ∧
  resolved w' b ∧
  (isConnected w').1 = Ok true ∧
  built_by terraform_state_list_handler a w' b [JS.Str "state"; JS.Str "list"].
Proof.
  intros Hdet w'.
  assert (b ≠ "") as Hne
    by (destruct (detectBinary_candidates w b Hdet) as [-> | ->]; discriminate).
  assert (connect w =
            (Ok (JS.Obj [("success", JS.Bool true); ("binary", JS.Str b)]),
             set_tfjs_connected true (set_tfjs_binaryPath (Some b) (detectBinary w).2)))
    as Hconnect.
  { unfold connect, bind. destruct (detectBinary w) as [[r | m] w1]; simpl in *;
      [|discriminate].
    injection Hdet as ->. unfold modify. simpl.
    by rewrite bool_decide_eq_false_2. }
  subst w'. rewrite Hconnect. simpl.
  split; [reflexivity|]. split; [by split|]. split; [reflexivity|].
  apply runCommand_log. by split.
Qed.

Lemma connect_records_detected_binary_witness :
  let w' := (connect terraform_only_world).2 in
  (connect terraform_only_world).1 =
    Ok (JS.Obj [("success", JS.Bool true); ("binary", JS.Str "terraform")]) ∧
  resolved w' "terraform" ∧
  (isConnected w').1 = Ok true ∧
  built_by terraform_state_list_handler ∅ w' "terraform" [JS.Str "state"; JS.Str "list"].
Proof.
  apply (connect_records_detected_binary terraform_only_world "terraform" ∅).
  reflexivity.
Defined.

(** X5. When detection finds nothing, [connect] does not throw: it answers
    with [success] false, resets [binaryPath] to [null] and leaves the
    [connected] flag as it was.  After a failed reconnection [isConnected]
    can therefore still answer true while every handler refuses to run. *)
Theorem connect_failure_keeps_connected_flag w :
  (detectBinary w).1 = Ok None →
  let w' := (connect w).2 in
  (connect w).1 =
    Ok (JS.Obj [("success", JS.Bool false);
                ("error", JS.Str "No Terraform/OpenTofu binary found")]) ∧
  tfjs_binaryPath w' = None ∧
  (isConnected w').1 = Ok (tfjs_connected w) ∧
  (∀ tool a, tool ∈ tools →
     tool_handler tool a w' = (Throw "Not connected to Terraform/OpenTofu", w')).
Proof.
  intros Hdet w'.
  assert (connect w =
            (Ok (JS.Obj [("success", JS.Bool false);
                         ("error", JS.Str "No Terraform/OpenTofu binary found")]),
             set_tfjs_binaryPath None (detectBinary w).2)) as Hconnect.
  { unfold connect, bind. destruct (detectBinary w) as [[r | m] w1]; simpl in *;
      [|discriminate].
    by injection Hdet as ->. }
  subst w'. rewrite Hconnect. simpl.
  split; [reflexivity|]. split; [reflexivity|]. split.
  - unfold isConnected, gets. simpl. f_equal. apply detectBinary_state.
  - intros tool a Hin. by apply tfjs_handler_not_connected.
Qed.

Lemma connect_failure_keeps_connected_flag_witness :
  let w' := (connect stale_world).2 in
  (connect stale_world).1 =
    Ok (JS.Obj [("success", JS.Bool false);
                ("error", JS.Str "No Terraform/OpenTofu binary found")]) ∧
  tfjs_binaryPath w' = None ∧
  (isConnected w').1 = Ok true ∧
  (∀ tool a, tool ∈ tools →
     tool_handler tool a w' = (Throw "Not connected to Terraform/OpenTofu", w')).
Proof.
  apply (connect_failure_keeps_connected_flag stale_world). reflexivity.
Defined.

(** X6. After [disconnect], in whatever state the adapter was,
    [isConnected] answers false and every handler fails with the
    not-connected error without invoking anything; a second [disconnect]
    changes nothing. *)
Theorem disconnect_stops_every_handler w tool a :
  tool ∈ tools →
  let w' := (disconnect w).2 in
  (isConnected w').1 = Ok false ∧
  tool_handler tool a w' = (Throw "Not connected to Terraform/OpenTofu", w') ∧
  (disconnect w').2 = w'.
Proof.
  intros Hin w'. split; [reflexivity|]. split; [|reflexivity].
  by apply tfjs_handler_not_connected.
Qed.

Lemma disconnect_stops_every_handler_witness :
  let w' := (disconnect tofu_world).2 in
  (isConnected w').1 = Ok false ∧
  terraform_apply_handler approve_args w' =
    (Throw "Not connected to Terraform/OpenTofu", w') ∧
  (disconnect w').2 = w'.
Proof.
  apply (disconnect_stops_every_handler tofu_world
           (mkTool "terraform_apply" "Apply infrastructure changes"
              (mkInputSchema "object"
                 [("path", mkProperty "string"
                             "Path to plan file or configuration directory" None);
                  ("autoApprove", mkProperty "boolean" "Skip interactive approval"
                                    (Some (JS.Bool false)))]
                 ["path"])
              terraform_apply_handler) approve_args).
  unfold tools. do 2 (apply elem_of_cons; right). apply elem_of_cons. by left.
Defined.

End Detection.

Lemma tfres_detectBinary_eq w :
  TerraformRes.detectBinary w = TerraformJs.detectBinary w.
Proof.
  rewrite detectBinary_cases.
  unfold TerraformRes.detectBinary, TerraformRes.detectBinary_loop, Deno_Command_run,
    bind, try_catch, ret, Deno_Command_output, probe. simpl.
  destruct (os w (invocations w) _) as [m1 | c1 o1 e1]; simpl.
  - destruct (os w (invocations w ++ _) _) as [m2 | c2 o2 e2]; simpl;
      rewrite <- ?app_assoc; simpl; [reflexivity|].
    by case_bool_decide.
  - case_bool_decide; simpl; [reflexivity|].
    destruct (os w (invocations w ++ _) _) as [m2 | c2 o2 e2]; simpl;
      rewrite <- ?app_assoc; simpl; [reflexivity|].
    by case_bool_decide.
Qed.

(** X7. The ReScript adapter detects the binary exactly as the JavaScript
    one does: in every world the two [detectBinary] give the same answer
    and leave the same world (the same probes, in the same order), although
    the ReScript loop runs to the end of the candidate list instead of
    returning early. *)
Theorem detectBinary_same_in_both_adapters w :
  TerraformRes.detectBinary w = TerraformJs.detectBinary w ∧
  (TerraformRes.detectBinary w).2 =
    set_invocations
      (invocations w ++
       if probe_ok (os w (invocations w) (probe "tofu"))
       then [probe "tofu"] else [probe "tofu"; probe "terraform"])
      w.
Proof.
  split; [apply tfres_detectBinary_eq|].
  rewrite tfres_detectBinary_eq, detectBinary_cases.
  by destruct (probe_ok _).
Qed.

(* ===================================================================== *)
(** ** More argument vectors of terraform.js *)
(* ===================================================================== *)

Section MoreVectors.
Import TerraformJs.

Lemma push_vars_app args entries :
  push_vars args entries = args ++ (var_argument <$> entries).
Proof.
  revert args. induction entries as [|e entries IH]; intros args; simpl.
  - by rewrite app_nil_r.
  - unfold push_vars in *. simpl. rewrite IH. unfold push.
    by rewrite <- app_assoc.
Qed.

(** X8. For the six tools that operate on a directory ([init], [plan],
    [apply], [destroy], [validate], [fmt]) the argument vector starts with
    the subcommand, the tool name without its [terraform_] prefix, and
    ends with the caller's [path] value, whatever flags come between, also
    when [vars] adds arguments. *)
Theorem path_is_last_argument name tool a w b :
  name ∈ ["terraform_init"; "terraform_plan"; "terraform_apply";
          "terraform_destroy"; "terraform_validate"; "terraform_fmt"] →
  IndexJs.find_tool adapter name = Some tool →
  resolved w b →
  ∃ sub flags,
    name = "terraform_" +:+ sub ∧
    built_by (tool_handler tool) a w b (JS.Str sub :: flags ++ [prop a "path"]).
Proof.
  intros Hname Hfind Hres.
  repeat (apply elem_of_cons in Hname as [-> | Hname]);
    [..| by apply elem_of_nil in Hname];
    injection Hfind as <-; simpl tool_handler.
  - exists "init".
    exists (push_if (JS.truthy (prop_default a "upgrade" (JS.Bool false)))
              (push_if (negb (JS.truthy (prop_default a "backend" (JS.Bool true))))
                 [] (JS.Str "-backend=false"))
              (JS.Str "-upgrade")).
    split; [reflexivity|]. unfold built_by, terraform_init_handler.
    rewrite (runCommand_log _ w b Hres). do 2 f_equal.
    unfold push_if, push. by repeat case_match.
  - exists "plan". unfold built_by, terraform_plan_handler.
    destruct (JS.truthy (prop a "vars")) eqn:Hv.
    + destruct (JS.Object_entries (prop a "vars")) as [entries|] eqn:He.
      * exists (push_if (JS.truthy (prop a "out")) []
                  (JS.Str ("-out=" +:+ JS.toString (prop a "out")))
                ++ (var_argument <$> entries)).
        split; [reflexivity|].
        rewrite (runCommand_log _ w b Hres). do 2 f_equal.
        rewrite push_vars_app. unfold push_if, push.
        case_match; simpl; by rewrite <- ?app_assoc.
      * destruct (prop a "vars"); simpl in Hv, He; discriminate.
    + exists (push_if (JS.truthy (prop a "out")) []
                (JS.Str ("-out=" +:+ JS.toString (prop a "out")))).
      split; [reflexivity|].
      rewrite (runCommand_log _ w b Hres). do 2 f_equal.
      unfold push_if, push. by case_match.
  - exists "apply".
    exists (push_if (JS.truthy (prop_default a "autoApprove" (JS.Bool false)))
              [] auto_approve).
    split; [reflexivity|]. unfold built_by, terraform_apply_handler.
    rewrite (runCommand_log _ w b Hres). do 2 f_equal.
    unfold push_if, push. by case_match.
  - exists "destroy".
    exists (push_if (JS.truthy (prop_default a "autoApprove" (JS.Bool false)))
              [] auto_approve).
    split; [reflexivity|]. unfold built_by, terraform_destroy_handler.
    rewrite (runCommand_log _ w b Hres). do 2 f_equal.
    unfold push_if, push. by case_match.
  - exists "validate", []. split; [reflexivity|].
    unfold built_by, terraform_validate_handler.
    by rewrite (runCommand_log _ w b Hres).
  - exists "fmt".
    exists (push_if (JS.truthy (prop_default a "check" (JS.Bool false)))
              [] (JS.Str "-check")).
    split; [reflexivity|]. unfold built_by, terraform_fmt_handler.
    rewrite (runCommand_log _ w b Hres). do 2 f_equal.
    unfold push_if, push. by case_match.
Qed.

Lemma path_is_last_argument_witness :
  ∃ sub flags,
    "terraform_fmt" = "terraform_" +:+ sub ∧
    built_by terraform_fmt_handler plain_args tofu_world "tofu"
             (JS.Str sub :: flags ++ [prop plain_args "path"]).
Proof.
  apply (path_is_last_argument "terraform_fmt"
           (mkTool "terraform_fmt" "Format configuration files"
              (mkInputSchema "object"
                 [path_schema;
                  ("check", mkProperty "boolean"
                              "Check if files are formatted without modifying"
                              (Some (JS.Bool false)))]
                 ["path"])
              terraform_fmt_handler) plain_args tofu_world "tofu").
  - do 5 (apply elem_of_cons; right). apply elem_of_cons. by left.
  - reflexivity.
  - split; [reflexivity | discriminate].
Defined.



(** X10. The output handler never passes [path]: whatever value [path] is
    given, the invocation is the one made without it.  An empty [name] is
    treated as no name. *)
Theorem output_ignores_path a w v :
  terraform_output_handler (<["path" := v]> a) w =
    terraform_output_handler (delete "path" a) w ∧
  terraform_output_handler (<["name" := JS.Str ""]> a) w =
    terraform_output_handler (delete "name" a) w.
Proof.
  unfold terraform_output_handler, prop_default, prop. split.
  - rewrite !lookup_insert_ne, !lookup_delete_ne by done. reflexivity.
  - rewrite lookup_insert_eq, lookup_delete_eq.
    rewrite !lookup_insert_ne, !lookup_delete_ne by done. reflexivity.
Qed.

(** X11. The apply and destroy handlers test [autoApprove] for truthiness,
    not for being [true]: any truthy value, the string [false] included,
    adds [-auto-approve]. *)
Theorem auto_approve_on_any_truthy_value a w b v :
  resolved w b →
  a !! "autoApprove" = Some v →
  JS.truthy v = true →
  built_by terraform_apply_handler a w b
    [JS.Str "apply"; auto_approve; prop a "path"] ∧
  built_by terraform_destroy_handler a w b
    [JS.Str "destroy"; auto_approve; prop a "path"].
Proof.
  intros Hres Hv Ht.
  assert (JS.truthy (prop_default a "autoApprove" (JS.Bool false)) = true) as Hflag.
  { unfold prop_default, prop. rewrite Hv. simpl. by destruct v. }
  unfold built_by, terraform_apply_handler, terraform_destroy_handler.
  rewrite !(runCommand_log _ w b Hres), Hflag. by split.
Qed.

Lemma auto_approve_on_any_truthy_value_witness :
  built_by terraform_apply_handler string_false_args tofu_world "tofu"
    [JS.Str "apply"; auto_approve; JS.Str "infra"] ∧
  built_by terraform_destroy_handler string_false_args tofu_world "tofu"
    [JS.Str "destroy"; auto_approve; JS.Str "infra"].
Proof.
  apply (auto_approve_on_any_truthy_value string_false_args tofu_world "tofu"
           (JS.Str "false")).
  - split; [reflexivity | discriminate].
  - reflexivity.
  - reflexivity.
Defined.

End MoreVectors.

(* ===================================================================== *)
(** ** More on the call boundary of index.js *)
(* ===================================================================== *)

Section CallBoundary.
Import IndexJs.

(** What the call on the terraform adapter does to the world and what it
    answers, when it ran the invocation [inv]. *)
Lemma terraform_call_ran name a w r w' inv :
  CallTool_handler [TerraformJs.adapter] name a w = (r, w') →
  invocations w' = invocations w ++ [inv] →
  r = match os w (invocations w) inv with
      | SpawnError m => Ok (error_envelope m)
      | Exited code out err =>
          Ok (mkEnvelope
                [mkContent "text" (JS.JSON_stringify (command_result code out err))]
                None)
      end.
Proof.
  intros Hcall Hlog.
  destruct (terraform_call_cases name a) as [[argv Hrun] | Hunknown].
  - rewrite Hrun in Hcall. unfold call_handler, try_catch, bind, ret in Hcall.
    destruct (tfjs_binaryPath w) as [b|] eqn:Hb.
    + destruct (decide (b = "")) as [-> | Hne].
      * rewrite runCommand_not_connected in Hcall by (by rewrite Hb).
        simpl in Hcall. injection Hcall as _ <-.
        by apply app_singleton_neq in Hlog.
      * rewrite (runCommand_connected argv w b Hb Hne) in Hcall.
        assert (w' = set_invocations (invocations w ++ [mkInvocation b argv]) w)
          as -> by (destruct (os w (invocations w) (mkInvocation b argv));
                    simpl in Hcall; congruence).
        simpl in Hlog. apply app_inj_tail in Hlog as [_ <-].
        destruct (os w (invocations w) (mkInvocation b argv));
          simpl in Hcall; by injection Hcall as <-.
    + rewrite runCommand_not_connected in Hcall by (by rewrite Hb).
      simpl in Hcall. injection Hcall as _ <-.
      by apply app_singleton_neq in Hlog.
  - rewrite Hunknown in Hcall. injection Hcall as _ <-.
    by apply app_singleton_neq in Hlog.
Qed.

(** X12. When the process of a terraform call cannot be spawned, the
    exception of the process runner does not escape: the call returns an
    envelope marked as an error whose text is [Error: ] followed by the
    message of the spawn failure. *)
Theorem spawn_failure_is_an_error_envelope name a w r w' inv message :
  CallTool_handler [TerraformJs.adapter] name a w = (r, w') →
  invocations w' = invocations w ++ [inv] →
  os w (invocations w) inv = SpawnError message →
  r = Ok (mkEnvelope [mkContent "text" (Some ("Error: " +:+ message))] (Some true)).
Proof.
  intros Hcall Hlog Hos.
  rewrite (terraform_call_ran name a w r w' inv Hcall Hlog), Hos. reflexivity.
Qed.

Lemma spawn_failure_is_an_error_envelope_witness :
  (CallTool_handler [TerraformJs.adapter] "terraform_validate" plain_args stale_world).1 =
    Ok (mkEnvelope
          [mkContent "text" (Some "Error: No such file or directory")] (Some true)).
Proof.
  apply (spawn_failure_is_an_error_envelope "terraform_validate" plain_args stale_world
           _ (CallTool_handler [TerraformJs.adapter] "terraform_validate" plain_args
                               stale_world).2
           (mkInvocation "tofu" [JS.Str "validate"; JS.Str "infra"])
           "No such file or directory").
  - reflexivity.
  - reflexivity.
  - reflexivity.
Defined.

(** X13. Whatever the exit code of the process a terraform call ran, the
    text of the envelope, read as JSON, is the result object whose
    [success] is true exactly when the exit code is 0, with the captured
    output, error text and code; the envelope is not marked as an error. *)
Theorem envelope_text_reads_back name a w r w' inv code out err :
  CallTool_handler [TerraformJs.adapter] name a w = (r, w') →
  invocations w' = invocations w ++ [inv] →
  os w (invocations w) inv = Exited code out err →
  ∃ text,
    r = Ok (mkEnvelope [mkContent "text" (Some text)] None) ∧
    JS.JSON_parse text = Some (result_object (bool_decide (code = 0)) out err code).
Proof.
  intros Hcall Hlog Hos.
  exists (result_text (bool_decide (code = 0)) out err code).
  split; [|apply parse_result_text].
  rewrite (terraform_call_ran name a w r w' inv Hcall Hlog), Hos.
  unfold command_result. by rewrite stringify_result.
Qed.

Lemma envelope_text_reads_back_witness :
  ∃ text,
    (CallTool_handler [TerraformJs.adapter] "terraform_validate" plain_args tofu_world).1 =
      Ok (mkEnvelope [mkContent "text" (Some text)] None) ∧
    JS.JSON_parse text = Some (result_object true "ok" "" 0).
Proof.
  apply (envelope_text_reads_back "terraform_validate" plain_args tofu_world
           _ (CallTool_handler [TerraformJs.adapter] "terraform_validate" plain_args
                               tofu_world).2
           (mkInvocation "tofu" [JS.Str "validate"; JS.Str "infra"]) 0 "ok" "").
  - reflexivity.
  - reflexivity.
  - reflexivity.
Defined.

(** X14. A call on the terraform adapter never writes the connection
    state: [binaryPath] and [connected] are as before, nothing is written
    to the error stream, and at most one invocation is added to the log. *)
Theorem call_keeps_connection_state name a w :
  let w' := (CallTool_handler [TerraformJs.adapter] name a w).2 in
  tfjs_binaryPath w' = tfjs_binaryPath w ∧
  tfjs_connected w' = tfjs_connected w ∧
  stderr_lines w' = stderr_lines w ∧
  (invocations w' = invocations w ∨ ∃ inv, invocations w' = invocations w ++ [inv]).
Proof.
  intros w'. subst w'.
  destruct (terraform_call_cases name a) as [[argv Hrun] | Hunknown].
  - rewrite Hrun, call_handler_world.
    destruct (tfjs_binaryPath w) as [b|] eqn:Hb.
    + destruct (decide (b = "")) as [-> | Hne].
      * rewrite runCommand_not_connected by (by rewrite Hb). simpl.
        rewrite Hb. repeat split; by left.
      * rewrite (runCommand_connected argv w b Hb Hne). simpl.
        rewrite Hb. repeat split. right. by eexists.
    + rewrite runCommand_not_connected by (by rewrite Hb). simpl.
      rewrite Hb. repeat split; by left.
  - rewrite Hunknown. simpl. repeat split; by left.
Qed.

(** The loop of the call handler stops at the first adapter that lists the
    name. *)
Lemma CallTool_first_match before adapter after name tool args :
  (∀ x, x ∈ before → find_tool x name = None) →
  find_tool adapter name = Some tool →
  CallTool_handler (before ++ adapter :: after) name args =
    call_handler (tool_handler tool) args.
Proof.
  intros Hbefore Hfind. unfold CallTool_handler.
  induction before as [|x before IH]; simpl.
  - by rewrite Hfind.
  - rewrite Hbefore by (apply elem_of_cons; by left).
    apply IH. intros y Hy. apply Hbefore. apply elem_of_cons. by right.
Qed.

(** A listed name is found in some adapter, with no match before it. *)
Lemma listed_tool_found adapters name :
  name ∈ tool_name <$> allTools adapters →
  ∃ before adapter after tool,
    adapters = before ++ adapter :: after ∧
    (∀ x, x ∈ before → find_tool x name = None) ∧
    find_tool adapter name = Some tool.
Proof.
  unfold allTools. induction adapters as [|x rest IH]; simpl.
  - intros H. by apply elem_of_nil in H.
  - intros H. destruct (find_tool x name) as [tool|] eqn:Hfind.
    + exists [], x, rest, tool. split; [done|]. split; [|done].
      intros y Hy. by apply elem_of_nil in Hy.
    + rewrite fmap_app in H. apply elem_of_app in H as [H | H].
      * exfalso. unfold find_tool in Hfind.
        destruct (adapter_tools x) as [tools|]; simpl in H;
          [|by apply elem_of_nil in H].
        apply list_elem_of_fmap in H as (t & -> & Ht).
        apply list_elem_of_In in Ht.
        eapply (find_none _ _ Hfind) in Ht. simpl in Ht.
        by rewrite bool_decide_eq_true_2 in Ht.
      * destruct (IH H) as (before & adapter & after & tool & -> & Hb & Hf).
        exists (x :: before), adapter, after, tool. split; [done|]. split; [|done].
        intros y Hy. apply elem_of_cons in Hy as [-> | Hy]; [done | by apply Hb].
Qed.

(** X15. A fault of a handler is contained at the call boundary: when the
    handler of the tool the call resolves to throws, the call returns an
    envelope marked as an error whose text is [Error: ] followed by the
    message, and the world is the one the handler left. *)
Theorem handler_fault_is_contained before adapter after name tool args w message w1 :
  (∀ x, x ∈ before → find_tool x name = None) →
  find_tool adapter name = Some tool →
  tool_handler tool args w = (Throw message, w1) →
  CallTool_handler (before ++ adapter :: after) name args w =
    (Ok (error_envelope message), w1).
Proof.
  intros Hbefore Hfind Hthrow.
  rewrite (CallTool_first_match before adapter after name tool args Hbefore Hfind).
  unfold call_handler, try_catch, bind. by rewrite Hthrow.
Qed.

Lemma handler_fault_is_contained_witness :
  CallTool_handler ([] ++ TerraformJs.adapter :: []) "terraform_state_list" ∅
                   (initial_world (os_always (Exited 0 "" ""))) =
    (Ok (error_envelope "Not connected to Terraform/OpenTofu"),
     initial_world (os_always (Exited 0 "" ""))).
Proof.
  apply (handler_fault_is_contained [] TerraformJs.adapter [] "terraform_state_list"
           (mkTool "terraform_state_list" "List resources in the state"
              (mkInputSchema "object" [TerraformJs.path_schema] ["path"])
              TerraformJs.terraform_state_list_handler)).
  - intros x Hx. by apply elem_of_nil in Hx.
  - reflexivity.
  - reflexivity.
Defined.

(** X16. Listing and dispatch agree on the names: a call is answered with
    the [Unknown tool] envelope exactly when its name is not among the names
    of the listing. *)
Theorem unknown_exactly_when_not_listed adapters name args w :
  (CallTool_handler adapters name args w).1 = Ok (unknown_envelope name) ↔
  name ∉ info_name <$> (info_of <$> allTools adapters).
Proof.
  rewrite <- list_fmap_compose.
  change (info_name ∘ info_of) with tool_name.
  split.
  - intros Hcall Hin.
    destruct (listed_tool_found adapters name Hin)
      as (before & adapter & after & tool & -> & Hb & Hf).
    rewrite (CallTool_first_match before adapter after name tool args Hb Hf) in Hcall.
    unfold call_handler, try_catch, bind, ret in Hcall.
    destruct (tool_handler tool args w) as [[v | m] w1]; simpl in Hcall;
      discriminate.
  - intros Hnot. unfold CallTool_handler, allTools in *.
    induction adapters as [|x rest IH]; simpl; [done|].
    simpl in Hnot. rewrite fmap_app in Hnot.
    apply not_elem_of_app in Hnot as [Hhere Hrest].
    rewrite find_tool_none by done. by apply IH.
Qed.

End CallBoundary.

(* ===================================================================== *)
(** ** More on start-up in main.js *)
(* ===================================================================== *)

Section MoreStartup.
Import MainJs.

(** X17. Registering an adapter's tools in the table: afterwards a name
    the adapter lists maps to the adapter's definition, whatever was there
    before, and every other name maps to what it mapped to before. *)
Theorem merge_tools_lookup tools table name :
  merge_tools tools table !! name =
    match tools !! name with
    | Some def => Some def
    | None => table !! name
    end.
Proof.
  rewrite merge_tools_union.
  destruct (tools !! name) as [def|] eqn:H.
  - by apply lookup_union_Some_l.
  - by rewrite lookup_union_r.
Qed.

Lemma build_inputSchema_properties params :
  os_properties (build_inputSchema params) =
    (λ d, mkSchemaProperty (type_ d) (param_description d)) <$> params.
Proof.
  unfold build_inputSchema. simpl.
  etrans; [apply (foldl_insert_entries
                    (λ d, mkSchemaProperty (type_ d) (param_description d))),
           NoDup_fst_map_to_list|].
  by rewrite list_to_map_to_list, (right_id_L ∅ (∪)).
Qed.

(** X18. The registration loop registers exactly the names of the table:
    under each name the description of the tool, a callback around its
    handler, and an object schema that has one property per declared
    parameter, with the parameter's type and description, and no other
    property. *)
Theorem registration_mirrors_table table name :
  register_tools table !! name =
    (λ tool, mkRegistered (def_description tool) (build_inputSchema (def_params tool))
                          (call_handler (def_handler tool))) <$> table !! name ∧
  (∀ params p,
     os_type (build_inputSchema params) = "object" ∧
     os_properties (build_inputSchema params) !! p =
       (λ d, mkSchemaProperty (type_ d) (param_description d)) <$> params !! p).
Proof.
  split.
  - by rewrite register_tools_fmap, lookup_fmap.
  - intros params p. split; [reflexivity|].
    by rewrite build_inputSchema_properties, lookup_fmap.
Qed.





End MoreStartup.

(* ===================================================================== *)
(** ** The ReScript Terraform adapter *)
(* ===================================================================== *)

Section TerraformResProperties.
Import TerraformRes.

Lemma tfres_runCommand_log args w b :
  tfres_binaryPath w = Some b →
  invocations (runCommand args w).2 =
    invocations w ++ [mkInvocation b (map JS.Str args)].
Proof.
  intros Hb. unfold runCommand, Deno_Command_run, bind, gets, Deno_Command_output.
  simpl. rewrite Hb. simpl.
  by destruct (os w (invocations w) (mkInvocation b (map JS.Str args))).
Qed.

Lemma tfres_detectBinary_state w :
  tfres_binaryPath (detectBinary w).2 = tfres_binaryPath w ∧
  tfres_connected (detectBinary w).2 = tfres_connected w ∧
  invocations w `prefix_of` invocations (detectBinary w).2.
Proof.
  rewrite tfres_detectBinary_eq, detectBinary_cases.
  destruct (probe_ok _); simpl; repeat split; by eexists.
Qed.

(** X21. [connect] of Terraform.res: when detection finds a binary it is
    recorded and [connected] becomes true; when detection finds nothing,
    [connect] throws [No Terraform/OpenTofu binary found] and leaves
    [binaryPath] and [connected] as they were, so that a binary resolved
    by an earlier connection stays the one commands are sent to. *)
Theorem tfres_connect_outcomes w :
  (∀ b, (detectBinary w).1 = Ok (Some b) →
     connect w =
       (Ok tt, set_tfres_connected true
                 (set_tfres_binaryPath (Some b) (detectBinary w).2))) ∧
  ((detectBinary w).1 = Ok None →
     let w' := (connect w).2 in
     (connect w).1 = Throw "No Terraform/OpenTofu binary found" ∧
     tfres_binaryPath w' = tfres_binaryPath w ∧
     tfres_connected w' = tfres_connected w ∧
     (∀ b a, tfres_binaryPath w = Some b →
        invocations (stateListHandler a w').2 =
          invocations w' ++ [mkInvocation b [JS.Str "state"; JS.Str "list"]])).
Proof.
  split.
  - intros b Hdet. unfold connect, bind.
    destruct (detectBinary w) as [[r | m] w1]; simpl in *; [|discriminate].
    by injection Hdet as ->.
  - intros Hdet w'.
    assert (connect w = (Throw "No Terraform/OpenTofu binary found", (detectBinary w).2))
      as Hconnect.
    { unfold connect, bind.
      destruct (detectBinary w) as [[r | m] w1]; simpl in *; [|discriminate].
      by injection Hdet as ->. }
    subst w'. rewrite Hconnect. simpl.
    destruct (tfres_detectBinary_state w) as (Hb & Hc & _).
    split; [reflexivity|]. split; [exact Hb|]. split; [exact Hc|].
    intros b a Hsome. unfold stateListHandler.
    rewrite (tfres_runCommand_log _ _ b) by (by rewrite Hb). reflexivity.
Qed.

(** A world in which Terraform.res resolved [tofu] earlier, on a machine
    that has lost its binaries. *)
Lemma tfres_connect_outcomes_witness :
  let w := set_tfres_connected true (set_tfres_binaryPath (Some "tofu") bare_world) in
  let w' := (connect w).2 in
  (connect w).1 = Throw "No Terraform/OpenTofu binary found" ∧
  tfres_binaryPath w' = Some "tofu" ∧
  tfres_connected w' = true ∧
  (∀ b a, tfres_binaryPath w = Some b →
     invocations (stateListHandler a w').2 =
       invocations w' ++ [mkInvocation b [JS.Str "state"; JS.Str "list"]]).
Proof.
  apply (tfres_connect_outcomes
           (set_tfres_connected true (set_tfres_binaryPath (Some "tofu") bare_world))).
  reflexivity.
Defined.

Lemma boolean_value_get_bool a k d :
  default d (get_bool a k) = boolean_value a k d.
Proof.
  unfold get_bool, boolean_value. destruct (a !! k) as [v|]; [|reflexivity].
  by destruct v.
Qed.

Lemma boolean_value_truthy a k d :
  boolean_or_absent a k →
  JS.truthy (prop_default a k (JS.Bool d)) = boolean_value a k d.
Proof.
  unfold prop_default, prop, boolean_value.
  intros [-> | [b ->]]; reflexivity.
Qed.

(** X22. On well-typed arguments (a string [path], the optional flags
    booleans or left out) the two implementations of the Terraform adapter
    send the same invocation for [init], [apply], [destroy], [validate],
    [fmt] and [state list]. *)
Theorem both_adapters_build_the_same_invocation a w b p :
  resolved w b → tfres_binaryPath w = Some b →
  a !! "path" = Some (JS.Str p) →
  boolean_or_absent a "backend" → boolean_or_absent a "upgrade" →
  boolean_or_absent a "autoApprove" → boolean_or_absent a "check" →
  invocations (TerraformJs.terraform_init_handler a w).2 =
    invocations (initHandler a w).2 ∧
  invocations (TerraformJs.terraform_apply_handler a w).2 =
    invocations (applyHandler a w).2 ∧
  invocations (TerraformJs.terraform_destroy_handler a w).2 =
    invocations (destroyHandler a w).2 ∧
  invocations (TerraformJs.terraform_validate_handler a w).2 =
    invocations (validateHandler a w).2 ∧
  invocations (TerraformJs.terraform_fmt_handler a w).2 =
    invocations (fmtHandler a w).2 ∧
  invocations (TerraformJs.terraform_state_list_handler a w).2 =
    invocations (stateListHandler a w).2.
Proof.
  intros Hres Hb Hpath Hbackend Hupgrade Hauto Hcheck.
  assert (prop a "path" = JS.Str p) as Hp by (unfold prop; by rewrite Hpath).
  assert (default "." (get_string a "path") = p) as Hp'
    by (unfold get_string; by rewrite Hpath).
  unfold TerraformJs.terraform_init_handler, TerraformJs.terraform_apply_handler,
    TerraformJs.terraform_destroy_handler, TerraformJs.terraform_validate_handler,
    TerraformJs.terraform_fmt_handler, TerraformJs.terraform_state_list_handler,
    initHandler, applyHandler, destroyHandler, validateHandler, fmtHandler,
    stateListHandler.
  rewrite !(runCommand_log _ w b Hres), !(tfres_runCommand_log _ w b Hb).
  rewrite !boolean_value_truthy by done.
  rewrite !boolean_value_get_bool, Hp, Hp'.
  repeat split; do 2 f_equal;
    unfold TerraformJs.push_if, TerraformJs.push, push_if, push;
    repeat case_match; reflexivity.
Qed.

Lemma both_adapters_build_the_same_invocation_witness :
  let w := set_tfres_binaryPath (Some "tofu") tofu_world in
  invocations (TerraformJs.terraform_apply_handler approve_args w).2 =
    invocations (applyHandler approve_args w).2.
Proof.
  apply (both_adapters_build_the_same_invocation approve_args
           (set_tfres_binaryPath (Some "tofu") tofu_world) "tofu" "infra").
  - split; [reflexivity | discriminate].
  - reflexivity.
  - reflexivity.
  - by left.
  - by left.
  - right. by exists true.
  - by left.
Defined.

(** X23. Where the JavaScript handlers pass on whatever [path] holds, the
    ReScript handlers fall back to the current directory: when [path] is
    left out or is not a string, the last argument of the invocation is
    [.]. *)
Theorem tfres_path_defaults_to_current_directory handler a w b :
  handler ∈ [initHandler; planHandler; applyHandler; destroyHandler;
             validateHandler; fmtHandler] →
  tfres_binaryPath w = Some b →
  get_string a "path" = None →
  ∃ front,
    invocations (handler a w).2 =
      invocations w ++ [mkInvocation b (map JS.Str (front ++ ["."]))].
Proof.
  intros Hin Hb Hpath.
  repeat (apply elem_of_cons in Hin as [-> | Hin]);
    [..| by apply elem_of_nil in Hin];
    unfold initHandler, planHandler, applyHandler, destroyHandler, validateHandler,
      fmtHandler;
    rewrite (tfres_runCommand_log _ w b Hb), Hpath;
    change (default "." None) with ".";
    first [ by exists ["validate"] | eexists; reflexivity ].
Qed.

Lemma tfres_path_defaults_to_current_directory_witness :
  ∃ front,
    invocations (validateHandler {[ "path" := JS.Num 7 ]}
                   (set_tfres_binaryPath (Some "tofu") tofu_world)).2 =
      invocations (set_tfres_binaryPath (Some "tofu") tofu_world)
      ++ [mkInvocation "tofu" (map JS.Str (front ++ ["."]))].
Proof.
  apply (tfres_path_defaults_to_current_directory validateHandler
           {[ "path" := JS.Num 7 ]} (set_tfres_binaryPath (Some "tofu") tofu_world)
           "tofu").
  - do 4 (apply elem_of_cons; right). apply elem_of_cons. by left.
  - reflexivity.
  - reflexivity.
Defined.

(** Every handler of Terraform.res hands one argument vector to
    [runCommand]. *)
Lemma tfres_handler_runs_command name def a :
  tools !! name = Some def →
  ∃ args, ∀ w, def_handler def a w = runCommand args w.
Proof.
  unfold tools. intros H.
  repeat (apply lookup_insert_Some in H as [[_ <-] | [_ H]];
          [eexists; intros w; reflexivity|]).
  by rewrite lookup_empty in H.
Qed.

(** X24. In the ReScript path a missing connection is data, not a fault:
    while no binary is resolved, every tool of Terraform.res answers with
    the object [success] false, [error] [Not connected to
    Terraform/OpenTofu], invokes nothing, and the callback [main.js]
    registered for it returns that object in an envelope that is not
    marked as an error. *)
Theorem tfres_not_connected_is_data name def a w :
  tools !! name = Some def →
  tfres_binaryPath w = None →
  let failure := JS.Obj [("success", JS.Bool false);
                         ("error", JS.Str "Not connected to Terraform/OpenTofu")] in
  def_handler def a w = (Ok failure, w) ∧
  MainJs.tool_callback def a w =
    (Ok (mkEnvelope [mkContent "text" (JS.JSON_stringify failure)] None), w).
Proof.
  intros Hdef Hb failure.
  destruct (tfres_handler_runs_command name def a Hdef) as [args Hargs].
  assert (def_handler def a w = (Ok failure, w)) as Hh
    by (rewrite Hargs; by apply tfres_runCommand_not_connected).
  split; [exact Hh|].
  unfold MainJs.tool_callback, call_handler, try_catch, bind. by rewrite Hh.
Qed.

Lemma tfres_not_connected_is_data_witness :
  let failure := JS.Obj [("success", JS.Bool false);
                         ("error", JS.Str "Not connected to Terraform/OpenTofu")] in
  versionHandler ∅ bare_world = (Ok failure, bare_world) ∧
  MainJs.tool_callback (mkToolDef "Show Terraform/OpenTofu version" ∅ versionHandler)
                       ∅ bare_world =
    (Ok (mkEnvelope [mkContent "text" (JS.JSON_stringify failure)] None), bare_world).
Proof.
  apply (tfres_not_connected_is_data "terraform_version"
           (mkToolDef "Show Terraform/OpenTofu version" ∅ versionHandler) ∅ bare_world).
  - reflexivity.
  - reflexivity.
Defined.

End TerraformResProperties.

(* ===================================================================== *)
(** ** The Pulumi adapter *)
(* ===================================================================== *)

Section PulumiProperties.
Import Pulumi.

(** A Pulumi command followed by the construction of its result. *)
Lemma pulumi_command_log {A} args (k : Z * string * string → A) w :
  invocations ((r <- runPulumiCmd args ;; ret (k r)) w).2 =
    invocations w ++ [mkInvocation "pulumi" (map JS.Str args)].
Proof.
  unfold runPulumiCmd, Deno_Command_run, bind, ret, Deno_Command_output. simpl.
  by destruct (os w (invocations w) (mkInvocation "pulumi" (map JS.Str args))).
Qed.

(** X25. [connect] of Pulumi.res runs [pulumi version] once.  Exit code 0
    sets [connected]; another exit code throws [Pulumi CLI not found]; a
    binary that cannot be spawned throws the spawn error itself.  In the
    two failing cases [connected] keeps its value. *)
Theorem pulumi_connect_outcomes w :
  let probed := set_invocations (invocations w ++ [probe "pulumi"]) w in
  (∀ out err, os w (invocations w) (probe "pulumi") = Exited 0 out err →
     connect w = (Ok tt, set_pulumi_connected true probed)) ∧
  (∀ code out err, os w (invocations w) (probe "pulumi") = Exited code out err →
     code ≠ 0 → connect w = (Throw "Pulumi CLI not found", probed)) ∧
  (∀ message, os w (invocations w) (probe "pulumi") = SpawnError message →
     connect w = (Throw message, probed)).
Proof.
  intros probed. subst probed.
  unfold connect, runPulumiCmd, Deno_Command_run, bind, ret, Deno_Command_output,
    probe. simpl.
  split; [|split].
  - intros out err ->. reflexivity.
  - intros code out err -> Hcode. simpl. by rewrite bool_decide_eq_false_2.
  - intros message ->. reflexivity.
Qed.

Lemma pulumi_connect_outcomes_witness :
  connect bare_world =
    (Throw "No such file or directory",
     set_invocations (invocations bare_world ++ [probe "pulumi"]) bare_world).
Proof.
  apply (pulumi_connect_outcomes bare_world). reflexivity.
Defined.

(** X26. The Pulumi handlers that need a value check it before running
    anything: [pulumi_stack_select] and [pulumi_stack_init] without a
    string [stack], [pulumi_config_get] and [pulumi_config_set] without a
    string [key], and [pulumi_config_set] with a key but without a string
    [value], throw the matching [... parameter is required] error and leave
    the world untouched; the registered callback answers with the error
    envelope. *)
Theorem pulumi_required_parameters_checked_first a w :
  (get_string a "stack" = None →
     stackSelectHandler a w = (Throw "stack parameter is required", w) ∧
     stackInitHandler a w = (Throw "stack parameter is required", w)) ∧
  (get_string a "key" = None →
     configGetHandler a w = (Throw "key parameter is required", w) ∧
     configSetHandler a w = (Throw "key parameter is required", w)) ∧
  (is_Some (get_string a "key") → get_string a "value" = None →
     configSetHandler a w = (Throw "value parameter is required", w)) ∧
  (∀ handler message,
     handler a w = (Throw message, w) →
     call_handler handler a w = (Ok (error_envelope message), w)).
Proof.
  split; [|split; [|split]].
  - intros H. unfold stackSelectHandler, stackInitHandler. by rewrite H.
  - intros H. unfold configGetHandler, configSetHandler. by rewrite H.
  - intros [k Hk] Hv. unfold configSetHandler. by rewrite Hk, Hv.
  - intros handler message H. unfold call_handler, try_catch, bind. by rewrite H.
Qed.

Lemma pulumi_required_parameters_checked_first_witness :
  configSetHandler {[ "key" := JS.Str "region"; "value" := JS.Num 3 ]} bare_world =
    (Throw "value parameter is required", bare_world).
Proof.
  apply (pulumi_required_parameters_checked_first
           {[ "key" := JS.Str "region"; "value" := JS.Num 3 ]} bare_world).
  - by exists "region".
  - reflexivity.
Defined.

(** X27. The three Pulumi operations that change infrastructure ([up],
    [destroy], [refresh]) add [--yes] exactly when [yes] is the boolean
    [true] (a truthy string does not count), after [--stack=] with the
    stack name when [stack] is a string; the directory follows [--cwd] and
    defaults to [.]. *)
Theorem pulumi_yes_only_when_true a w :
  let path := default "." (get_string a "path") in
  let stack := match get_string a "stack" with
               | Some s => ["--stack=" +:+ s]
               | None => []
               end in
  let yes := if bool_decide (a !! "yes" = Some (JS.Bool true)) then ["--yes"] else [] in
  invocations (upHandler a w).2 =
    invocations w ++
    [mkInvocation "pulumi"
       (map JS.Str (["up"; "--cwd"; path; "--json"] ++ stack ++ yes))] ∧
  invocations (destroyHandler a w).2 =
    invocations w ++
    [mkInvocation "pulumi"
       (map JS.Str (["destroy"; "--cwd"; path; "--json"] ++ stack ++ yes))] ∧
  invocations (refreshHandler a w).2 =
    invocations w ++
    [mkInvocation "pulumi"
       (map JS.Str (["refresh"; "--cwd"; path; "--json"] ++ stack ++ yes))].
Proof.
  intros path stack yes.
  assert (default false (get_bool a "yes") =
            bool_decide (a !! "yes" = Some (JS.Bool true))) as Hyes.
  { unfold get_bool. destruct (a !! "yes") as [v|]; [|done].
    destruct v as [| |[]| | | |]; simpl; try done. }
  unfold upHandler, destroyHandler, refreshHandler.
  rewrite !pulumi_command_log, Hyes. subst path stack yes.
  unfold push_yes, push_stack.
  repeat split; do 3 f_equal;
    destruct (get_string a "stack"); case_bool_decide; simpl; reflexivity.
Qed.

(** X28. [pulumi_config_set] passes the key and the value as two separate
    arguments, exactly as given, and adds [--secret] exactly when
    [secret] is the boolean [true]. *)
Theorem pulumi_config_set_vector a w key value :
  get_string a "key" = Some key →
  get_string a "value" = Some value →
  invocations (configSetHandler a w).2 =
    invocations w ++
    [mkInvocation "pulumi"
       (map JS.Str (["config"; "set"; key; value; "--cwd";
                     default "." (get_string a "path")]
                    ++ (if bool_decide (a !! "secret" = Some (JS.Bool true))
                        then ["--secret"] else [])))].
Proof.
  intros Hk Hv.
  assert (default false (get_bool a "secret") =
            bool_decide (a !! "secret" = Some (JS.Bool true))) as Hsecret.
  { unfold get_bool. destruct (a !! "secret") as [v|]; [|done].
    destruct v as [| |[]| | | |]; simpl; try done. }
  unfold configSetHandler. rewrite Hk, Hv, pulumi_command_log, Hsecret.
  do 3 f_equal. by case_bool_decide.
Qed.

Lemma pulumi_config_set_vector_witness :
  invocations (configSetHandler secret_args bare_world).2 =
    [mkInvocation "pulumi"
       [JS.Str "config"; JS.Str "set"; JS.Str "db password"; JS.Str "p w";
        JS.Str "--cwd"; JS.Str "."; JS.Str "--secret"]].
Proof.
  apply (pulumi_config_set_vector secret_args bare_world "db password" "p w");
    reflexivity.
Defined.

End PulumiProperties.
